(** * mmwave-calibrate: calibration matrices of a MIMO radar array

    A shallow embedding of [calibrate.py] (functions [coupling_calibration]
    and [waveform_calibration]) together with the properties its design
    document states about them.

    Numbers.  The program computes in IEEE binary64.  The Python floats
    of lines 47 to 61, from which the window of range bins is computed, are
    binary64 numbers here too, with the rounding of every operation: which
    bin a bound falls in, and whether [int] raises, depends on it.  The
    entries of the NumPy arrays are kept as exact rationals in lowest terms,
    so that equal numbers are equal terms; their rounding and overflow are
    abstracted away, and what is kept of IEEE arithmetic there is what
    decides the shape of the results: a NumPy division by zero yields an
    infinity or a NaN and goes on. *)

From Stdlib Require Import ZArith QArith Qround Qreduction List Lia Lqa Bool.
From Stdlib Require Import PrimFloat.
From Stdlib Require SpecFloat FloatOps FloatAxioms.
From Stdlib Require Import Strings.Byte.
From Stdlib Require Strings.String Strings.Ascii.
Import ListNotations.

(* ================================================================== *)
(** * Python: exceptions, float division, [int], slices *)
(* ================================================================== *)

Module Py.

(** The exceptions the two functions can raise; the program defines none
    of its own. *)
Inductive exn : Set :=
| ZeroDivisionError
| ValueError
| IndexError
| OverflowError.

Inductive result (A : Type) : Type :=
| Ok (a : A)
| Raise (e : exn).
Arguments Ok {A} a.
Arguments Raise {A} e.

Definition bind {A B : Type} (r : result A) (k : A -> result B) : result B :=
  match r with
  | Ok a => k a
  | Raise e => Raise e
  end.

Definition succeeds {A : Type} (r : result A) : bool :=
  match r with Ok _ => true | Raise _ => false end.

(** The binary64 nearest to a rational, ties to even, an infinity beyond
    the largest float: the rounding of [float(s)] on a decimal literal and
    of the conversion of an [int]. *)
Definition nearest (q : Q) : SpecFloat.spec_float :=
  let d := SpecFloat.S754_finite false (Qden q) 0 in
  match Qnum q with
  | Z0 => SpecFloat.S754_zero false
  | Zpos n =>
      SpecFloat.SFdiv FloatOps.prec FloatOps.emax
        (SpecFloat.S754_finite false n 0) d
  | Zneg n =>
      SpecFloat.SFdiv FloatOps.prec FloatOps.emax
        (SpecFloat.S754_finite true n 0) d
  end.

(** [float(s)] for the literal [s] of a rational: [argparse] with
    [type=float], and [json.load] on a number with a fraction or an
    exponent.  A literal beyond the float range reads as an infinity. *)
Definition to_float (q : Q) : float := FloatOps.SF2Prim (nearest q).

(** A number [q] as an operand of a float operation, where [q] is an
    [int], or the literal of a finite float.  An [int] is converted when it
    meets a float, to the nearest float, and the conversion of one beyond
    the float range raises; the literal of a finite float stands for that
    float.  (The rounding never gives a NaN.) *)
Definition as_float (q : Q) : result float :=
  let x := to_float q in
  if is_finite x then Ok x else Raise OverflowError.

(** [x.as_integer_ratio()]: the exact value of a finite float. *)
Definition as_integer_ratio (x : float) : Q :=
  match FloatOps.Prim2SF x with
  | SpecFloat.S754_finite s m e =>
      let a := match e with
               | Zneg k => Zpos m # 2 ^ k
               | _ => inject_Z (Zpos m * 2 ^ e)
               end in
      if s then - a else a
  | _ => 0
  end.

(** [a / b] on Python floats: a zero divisor, of either sign, raises. *)
Definition truediv (a b : float) : result float :=
  if is_zero b then Raise ZeroDivisionError else Ok (a / b)%float.

(** [int(x)] on a Python float: truncation toward zero; a NaN raises
    [ValueError] and an infinity [OverflowError]. *)
Definition int (x : float) : result Z :=
  match FloatOps.Prim2SF x with
  | SpecFloat.S754_nan => Raise ValueError
  | SpecFloat.S754_infinity _ => Raise OverflowError
  | SpecFloat.S754_zero _ => Ok 0%Z
  | SpecFloat.S754_finite s m e =>
      let a := match e with
               | Zneg k => (Zpos m / 2 ^ Zpos k)%Z
               | _ => (Zpos m * 2 ^ e)%Z
               end in
      Ok (if s then (- a)%Z else a)
  end.

(** Where a slice bound [i] lands on an axis of length [n]: a negative
    bound counts from the end, and every bound is clipped to [0, n]. *)
Definition clip (n i : Z) : Z :=
  if (i <? 0)%Z then Z.max (i + n) 0 else Z.min i n.

Definition slice_start (n lo : Z) : nat := Z.to_nat (clip n lo).

Definition slice_len (n lo hi : Z) : nat :=
  Z.to_nat (clip n hi - clip n lo).

(** [l[lo:hi]] *)
Definition slice {A : Type} (l : list A) (lo hi : Z) : list A :=
  let n := Z.of_nat (length l) in
  firstn (slice_len n lo hi) (skipn (slice_start n lo) l).

(** [m[i, j]] on a two-dimensional array. *)
Definition item2 {A : Type} (m : list (list A)) (i j : nat) : result A :=
  match nth_error m i with
  | Some row =>
      match nth_error row j with
      | Some x => Ok x
      | None => Raise IndexError
      end
  | None => Raise IndexError
  end.

End Py.

Notation "x <- r ;; k" := (Py.bind r (fun x => k))
  (at level 61, r at next level, right associativity).

(* ================================================================== *)
(** * NumPy: float64 and complex128 values, the array operations used *)
(* ================================================================== *)

Module Np.

(** A float64 as NumPy's arithmetic produces it. *)
Inductive float64 : Set :=
| Fin (q : Q)
| PInf
| NInf
| NaN.

Definition isfinite (x : float64) : bool :=
  match x with Fin _ => true | _ => false end.

(** [a / b] on finite float64 operands: no exception, a zero divisor gives
    a signed infinity, or NaN for [0 / 0]. *)
Definition true_divide (a b : Q) : float64 :=
  if Qeq_bool b 0 then
    match a ?= 0 with
    | Eq => NaN
    | Gt => PInf
    | Lt => NInf
    end
  else Fin (Qred (a / b)).

(** [x * s] for a finite scalar [s]. *)
Definition multiply (x : float64) (s : Q) : float64 :=
  match x with
  | Fin a => Fin (Qred (a * s))
  | NaN => NaN
  | PInf => match s ?= 0 with Gt => PInf | Lt => NInf | Eq => NaN end
  | NInf => match s ?= 0 with Gt => NInf | Lt => PInf | Eq => NaN end
  end.

(** The float64 nearest to pi, [np.pi]: 884279719003555 / 2^48. *)
Definition pi : Q := 884279719003555 # 281474976710656.

(** A finite complex128. *)
Record complex : Set := mkC { re : Q; im : Q }.

Definition c0 : complex := mkC 0 0.

Definition cadd (a b : complex) : complex :=
  mkC (Qred (re a + re b)) (Qred (im a + im b)).

Definition cmul (a b : complex) : complex :=
  mkC (Qred (re a * re b - im a * im b)) (Qred (re a * im b + im a * re b)).

Definition is_zero (a : complex) : bool :=
  Qeq_bool (re a) 0 && Qeq_bool (im a) 0.

(** Squared magnitude, enough to compare magnitudes exactly. *)
Definition abs2 (a : complex) : Q := re a * re a + im a * im a.

(** [a / b] on complex128: the quotient, and for a zero divisor each
    component of [a] divided by zero. *)
Definition cdivide (a b : complex) : float64 * float64 :=
  if is_zero b then (true_divide (re a) 0, true_divide (im a) 0)
  else
    (true_divide (re a * re b + im a * im b) (abs2 b),
     true_divide (im a * re b - re a * im b) (abs2 b)).

(** NumPy's order on complex numbers: by real part, then by imaginary
    part. *)
Definition cgt (a b : complex) : bool :=
  match re a ?= re b with
  | Gt => true
  | Lt => false
  | Eq => match im a ?= im b with Gt => true | _ => false end
  end.

Definition cge (a b : complex) : bool :=
  match re a ?= re b with
  | Gt => true
  | Lt => false
  | Eq => match im a ?= im b with Lt => false | _ => true end
  end.

(** The loop of [argmax] over one axis: [mp] is the running maximum, [mi]
    its position, [i] the position of the head of [l].  A later element
    replaces the maximum only when strictly greater. *)
Fixpoint argmax_loop (mp : complex) (mi i : nat) (l : list complex) : nat :=
  match l with
  | [] => mi
  | x :: t =>
      if cgt x mp then argmax_loop x i (S i) t
      else argmax_loop mp mi (S i) t
  end.

(** [np.argmax] along an axis of positive length. *)
Definition argmax (l : list complex) : Z :=
  match l with
  | [] => 0%Z
  | x :: t => Z.of_nat (argmax_loop x 0 1 t)
  end.

(** [np.maximum] on two complex numbers. *)
Definition maximum (a b : complex) : complex := if cge a b then a else b.

(** [np.max] along an axis of positive length: [maximum] reduced from the
    left. *)
Definition amax (l : list complex) : complex :=
  match l with
  | [] => c0
  | x :: t => fold_left maximum t x
  end.

(** Little-endian signed 16-bit item. *)
Definition int16_le (b0 b1 : byte) : Z :=
  let u := (Z.of_N (Byte.to_N b0) + 256 * Z.of_N (Byte.to_N b1))%Z in
  if (u <? 32768)%Z then u else (u - 65536)%Z.

(** [np.fromfile(filename, dtype=np.int16, count=-1)]: every complete item
    of the file; the item count is the file size divided by the item size,
    so a trailing odd byte is not read. *)
Fixpoint fromfile_int16 (bs : list byte) : list Z :=
  match bs with
  | b0 :: b1 :: t => int16_le b0 b1 :: fromfile_int16 t
  | _ => []
  end.

(** Row-major split of [l] into [rows] rows of [cols] items. *)
Fixpoint split_rows {A : Type} (rows cols : nat) (l : list A)
  : list (list A) :=
  match rows with
  | O => []
  | S r => firstn cols l :: split_rows r cols (skipn cols l)
  end.

Definition array5 : Type := list (list (list (list (list Z)))).

(** [a.reshape(ntx, nrx, nc, ns, 2)] *)
Definition reshape5 (a : list Z) (ntx nrx nc ns : nat) : Py.result array5 :=
  if (length a =? ntx * nrx * nc * ns * 2)%nat then
    Py.Ok
      (map (fun t =>
              map (fun r =>
                     map (fun c => split_rows ns 2 c)
                         (split_rows nc (ns * 2) r))
                  (split_rows nrx (nc * ns * 2) t))
           (split_rows ntx (nrx * nc * ns * 2) a))
  else Py.Raise Py.ValueError.

Definition zsum (l : list Z) : Z := fold_right Z.add 0%Z l.

(** [np.mean(block, axis=(0, 1))] of one (nc, ns, 2) block: for each of the
    two components, the sum over both axes divided by the number of
    positions. *)
Definition mean01 (nc ns : nat) (block : list (list (list Z)))
  : list float64 :=
  map (fun k =>
         true_divide
           (inject_Z
              (zsum (map (fun chirp =>
                            zsum (map (fun s => nth k s 0%Z) chirp))
                         block)))
           (inject_Z (Z.of_nat (nc * ns))))
      (seq 0 2).

(** Element-wise sum of the rows of a (nc, ns) block: [np.sum(block, 0)]. *)
Definition sum0 (ns : nat) (block : list (list complex)) : list complex :=
  fold_right (fun row acc => map (fun p => cadd (fst p) (snd p))
                                 (combine row acc))
             (repeat c0 ns) block.

End Np.

(* ================================================================== *)
(** * calibrate.py *)
(* ================================================================== *)

Import Py Np.

(** The fields of the calibration configuration file that
    [waveform_calibration] reads.  The two frequencies are numbers as
    [json.load] returns them: an [int], or a finite float given by the value
    of its literal.  (A literal that [json.load] reads as an infinity or a
    NaN is not a number, and no value of this record stands for it.) *)
Record config : Set := mkConfig {
  ntx : nat;
  nrx : nat;
  numChirpLoops : nat;
  numAdcSamples : nat;
  frequencySlope_Mhz_us : Q;
  adcSamplingFrequency_ksps : Q
}.

(** Speed of light, m/s. *)
Definition C : Q := 299792458.

(** The frame of both functions:
    [np.fromfile(filename, dtype=np.int16, count=-1).reshape(ntx, nrx, nc, ns, 2)] *)
Definition load_frame (file : list byte) (ntx nrx nc ns : nat)
  : result array5 :=
  reshape5 (fromfile_int16 file) ntx nrx nc ns.

(** [coupling_calibration]: the frame averaged over its chirp and sample
    axes, [np.mean(frame, axis=(2, 3))]. *)
Definition coupling_calibration (file : list byte) (ntx nrx nc ns : nat)
  : result (list (list (list float64))) :=
  frame <- load_frame file ntx nrx nc ns ;;
  Ok (map (map (mean01 nc ns)) frame).

(** ** [waveform_calibration], stage by stage *)

(** Unit conversions of the configuration, MHz/us to Hz/s and ksps to Hz,
    as the Python floats of lines 47 and 48. *)
Definition fslope64 (cfg : config) : result float :=
  x <- as_float (frequencySlope_Mhz_us cfg) ;;
  Ok (x * 1e+12)%float.

Definition fsample64 (cfg : config) : result float :=
  x <- as_float (adcSamplingFrequency_ksps cfg) ;;
  Ok (x * 1e3)%float.

(** The same two quantities as exact rationals: the values that scale the
    entries of the returned frequency matrix (line 82). *)
Definition fslope (cfg : config) : Q :=
  Qred (frequencySlope_Mhz_us cfg * inject_Z (10 ^ 12)).

Definition fsample (cfg : config) : Q :=
  Qred (adcSamplingFrequency_ksps cfg * inject_Z (10 ^ 3)).

(** [rmax = fsample * C / (2 * fslope)], [C] being the [int] 299792458. *)
Definition rmax (cfg : config) : result float :=
  fslope <- fslope64 cfg ;;
  fsample <- fsample64 cfg ;;
  truediv (fsample * 299792458)%float (2 * fslope)%float.

(** [rres = rmax / ns] *)
Definition rres (cfg : config) : result float :=
  m <- rmax cfg ;;
  ns <- as_float (inject_Z (Z.of_nat (numAdcSamples cfg))) ;;
  truediv m ns.

(** [ref_bins = int((ref - 1) / rres), int((ref + 1) / rres)], the low
    bound first; [ref] is the float that [argparse] read. *)
Definition ref_bins (res : float) (ref : Q) : result (Z * Z) :=
  a <- truediv (to_float ref - 1)%float res ;;
  lo <- int a ;;
  b <- truediv (to_float ref + 1)%float res ;;
  hi <- int b ;;
  Ok (lo, hi).

(** [frame[:, :, :, :, 0] + 1j * frame[:, :, :, :, 1]] *)
Definition iq (frame : array5) : list (list (list (list complex))) :=
  map (map (map (map (fun s =>
    mkC (inject_Z (nth 0 s 0%Z)) (inject_Z (nth 1 s 0%Z)))))) frame.

Section RangeProfile.

(** [np.fft.fft(x, n)] on one row of samples. *)
Variable fft : nat -> list complex -> list complex.

(** [np.sum(np.fft.fft(frame, ns, -1), -2)] *)
Definition range_profile (ns : nat) (frame : array5)
  : list (list (list complex)) :=
  map (map (fun block => sum0 ns (map (fft ns) block))) (iq frame).

End RangeProfile.

(** [peaks_idx] and [peaks]: [np.argmax] and [np.max] of
    [rfft[:, :, ref_bins[0]:ref_bins[1]]] along the last axis, of length
    [ns].  Both reductions refuse an axis of length zero. *)
Definition peak_search (rfft : list (list (list complex))) (ns : nat)
  (bins : Z * Z) : result (list (list Z) * list (list complex)) :=
  let (lo, hi) := bins in
  if (slice_len (Z.of_nat ns) lo hi =? 0)%nat then Raise ValueError
  else
    Ok (map (map (fun row => argmax (slice row lo hi))) rfft,
        map (map (fun row => amax (slice row lo hi))) rfft).

(** [peaks[0, 0] / peaks], stored as (real, imag). *)
Definition phase_calibration (peaks : list (list complex))
  : result (list (list (float64 * float64))) :=
  p00 <- item2 peaks 0 0 ;;
  Ok (map (map (fun p => cdivide p00 p)) peaks).

(** The Python float [fsample / fslope] of line 82, which raises on a zero
    divisor.  The quotient only scales the entries of the returned matrix,
    and is kept exact like them. *)
Definition ratio_of (fsample fslope : Q) : result Q :=
  if Qeq_bool fslope 0 then Raise ZeroDivisionError
  else Ok (Qred (fsample / fslope)).

(** One entry of [2 * np.pi * (dpeak_idx / ref) * (fsample / fslope)],
    [ratio] being the Python float [fsample / fslope]. *)
Definition freq_entry (d : Z) (ref ratio : Q) : float64 :=
  multiply (multiply (true_divide (inject_Z d) ref) (2 * pi)) ratio.

(** [dpeak_idx = peaks_idx - peaks_idx[0, 0]] and [freq_calib]. *)
Definition frequency_calibration (peaks_idx : list (list Z))
  (ref fsample fslope : Q) : result (list (list float64)) :=
  i00 <- item2 peaks_idx 0 0 ;;
  let dpeak_idx := map (map (fun i => (i - i00)%Z)) peaks_idx in
  ratio <- ratio_of fsample fslope ;;
  Ok (map (map (fun d => freq_entry d ref ratio)) dpeak_idx).

(** From the range profile to the two matrices (lines 71 to 84). *)
Definition calibrate_profile (rfft : list (list (list complex))) (ns : nat)
  (bins : Z * Z) (ref fsample fslope : Q)
  : result (list (list float64) * list (list (float64 * float64))) :=
  pk <- peak_search rfft ns bins ;;
  phase_calib <- phase_calibration (snd pk) ;;
  freq_calib <- frequency_calibration (fst pk) ref fsample fslope ;;
  Ok (freq_calib, phase_calib).

Section Waveform.

Variable fft : nat -> list complex -> list complex.

(** [waveform_calibration(filename, cfg, ref=ref)], returning
    [(freq_calib, phase_calib)].  The range resolution and the window are
    computed before the file is read. *)
Definition waveform_calibration (file : list byte) (cfg : config) (ref : Q)
  : result (list (list float64) * list (list (float64 * float64))) :=
  let ns := numAdcSamples cfg in
  res <- rres cfg ;;
  bins <- ref_bins res ref ;;
  frame <- load_frame file (ntx cfg) (nrx cfg) (numChirpLoops cfg) ns ;;
  let rfft := range_profile fft ns frame in
  calibrate_profile rfft ns bins ref (fsample cfg) (fslope cfg).

End Waveform.

(** ** A discrete Fourier transform to run the pipeline with

    At the lengths 1, 2 and 4 the roots of unity are 1, -1 and -i, and the
    transform is exact on Gaussian rationals.  Other lengths are outside this
    instance: its output there has the right length and nothing more. *)

Definition unit_root (n : nat) : complex :=
  match n with
  | 2%nat => mkC (-1) 0
  | 4%nat => mkC 0 (-1)
  | _ => mkC 1 0
  end.

Fixpoint cpow (w : complex) (k : nat) : complex :=
  match k with
  | O => mkC 1 0
  | S k' => cmul w (cpow w k')
  end.

Definition csum (l : list complex) : complex := fold_right cadd c0 l.

Definition dft (n : nat) (x : list complex) : list complex :=
  map (fun k =>
         csum (map (fun m => cmul (nth m x c0) (cpow (unit_root n) (k * m)))
                   (seq 0 n)))
      (seq 0 n).

(** ** Sample inputs *)

(** A signed 16-bit item as its two bytes, low byte first. *)
Definition le16 (z : Z) : list byte :=
  let u := (z mod 65536)%Z in
  match Byte.of_N (Z.to_N (u mod 256)), Byte.of_N (Z.to_N (u / 256)) with
  | Some a, Some b => [a; b]
  | _, _ => []
  end.

Definition le16s (l : list Z) : list byte := flat_map le16 l.

(** 100 MHz/us, 2 Msps, 4 samples per chirp: maximum range about 2.998 m,
    range resolution about 0.749 m. *)
Definition cfg4 (ntx nrx nc : nat) : config :=
  mkConfig ntx nrx nc 4 100 2000.

(** One antenna pair's chirp of four (I, Q) samples whose spectrum is
    0, 4, 20j, 0; and a silent chirp. *)
Definition chirp_a : list Z := [1; 5; 0; -4; -1; 5; 0; -6]%Z.

Definition chirp_0 : list Z := [0; 0; 0; 0; 0; 0; 0; 0]%Z.

(** A chirp whose spectrum is 0, 0, 20j, 0. *)
Definition chirp_b : list Z := [0; 5; 0; -5; 0; 5; 0; -5]%Z.

Definition spectrum_a : list complex := [c0; mkC 4 0; mkC 0 20; c0].

Definition spectrum_b : list complex := [c0; c0; mkC 0 20; c0].

(* ================================================================== *)
(** * The quantities the design document speaks of *)
(* ================================================================== *)

(** The item of the frame at [tx, rx, c, s, k] in the row-major layout of
    the file. *)
Definition raw (a : list Z) (nrx nc ns tx rx c s k : nat) : Z :=
  nth ((((tx * nrx + rx) * nc + c) * ns + s) * 2 + k) a 0%Z.

(** Sum of component [k] (0 is I, 1 is Q) of the antenna pair [(tx, rx)] over
    every chirp and sample. *)
Definition raw_sum (a : list Z) (nrx nc ns tx rx k : nat) : Z :=
  zsum (map (fun c => zsum (map (fun s => raw a nrx nc ns tx rx c s k)
                                (seq 0 ns)))
            (seq 0 nc)).

(** Arithmetic mean of [count] integers of sum [total]. *)
Definition mean_of (total : Z) (count : nat) : float64 :=
  Fin (Qred (inject_Z total / inject_Z (Z.of_nat count))).

(** The loader reading the declared byte count as a condition on the byte
    length of the file. *)
Definition accepts_exact_bytes (file : list byte) (ntx nrx nc ns : nat)
  : Prop :=
  succeeds (load_frame file ntx nrx nc ns) = true <->
  length file = (ntx * nrx * nc * ns * 2 * 2)%nat.

(** Range resolution, from the sampling frequency (Hz), the frequency slope
    (Hz/s) and the number of samples:
    [(sampling_frequency * c / (2 * frequency_slope)) / nsample], as a real
    number. *)
Definition resolution (f_sample f_slope : Q) (nsample : nat) : Q :=
  (f_sample * C / (2 * f_slope)) / inject_Z (Z.of_nat nsample).

(** The same formula evaluated in binary64, on three floats. *)
Definition resolution64 (f_sample f_slope nsample : float) : float :=
  ((f_sample * 299792458 / (2 * f_slope)) / nsample)%float.

(** The range resolution of a configuration, its fields converted from ksps
    and MHz/us. *)
Definition cfg_resolution (cfg : config) : Q :=
  resolution (adcSamplingFrequency_ksps cfg * 1000)
             (frequencySlope_Mhz_us cfg * inject_Z (10 ^ 12))
             (numAdcSamples cfg).

(** Rounding toward zero. *)
Definition Qtruncate (x : Q) : Z :=
  if Qle_bool 0 x then Qfloor x else Qceiling x.

(** The window of one metre on each side of [ref], in bins, rounded down,
    and the same rounded toward zero, for real quotients. *)
Definition floor_window (res ref : Q) : Z * Z :=
  (Qfloor ((ref - 1) / res), Qfloor ((ref + 1) / res)).

Definition truncate_window (res ref : Q) : Z * Z :=
  (Qtruncate ((ref - 1) / res), Qtruncate ((ref + 1) / res)).

(** The window the program computes for a configuration and a reference
    distance (lines 47 to 61). *)
Definition window_of (cfg : config) (ref : Q) : result (Z * Z) :=
  res <- rres cfg ;; ref_bins res ref.

(** NumPy's order on complex numbers as a proposition: [a] above [b]. *)
Definition lex_gt (a b : complex) : Prop :=
  re b < re a \/ (re a == re b /\ im b < im a).

(** [idx] is an absolute bin of the window [lo, hi) of [row] at which the
    magnitude is maximal over the window, and [peak] is the value there. *)
Definition magnitude_peak (row : list complex) (lo hi idx : Z)
  (peak : complex) : Prop :=
  (lo <= idx < hi)%Z /\
  nth_error row (Z.to_nat idx) = Some peak /\
  forall k x, (lo <= k < hi)%Z -> nth_error row (Z.to_nat k) = Some x ->
              abs2 x <= abs2 peak.


(** The file holds one frame of the configuration, and the array has a
    reference antenna. *)
Definition well_formed (cfg : config) (file : list byte) : Prop :=
  (0 < ntx cfg)%nat /\ (0 < nrx cfg)%nat /\
  (length file / 2 =
   ntx cfg * nrx cfg * numChirpLoops cfg * numAdcSamples cfg * 2)%nat.

(** The window is a non-empty interval of bins of the sample axis. *)
Definition window_in_bounds (ns : nat) (bins : Z * Z) : Prop :=
  (0 <= fst bins < snd bins)%Z /\ (snd bins <= Z.of_nat ns)%Z.

(** A quotient of the window computation is negative: [q < 0] on floats,
    which holds of minus infinity too. *)
Definition negative (q : float) : Prop := (q <? 0)%float = true.

(** A run rejects every window that is empty or out of bounds. *)
Definition rejects_bad_window (fft : nat -> list complex -> list complex)
  (file : list byte) (cfg : config) (ref : Q) : Prop :=
  forall bins,
    window_of cfg ref = Ok bins ->
    ~ window_in_bounds (numAdcSamples cfg) bins ->
    succeeds (waveform_calibration fft file cfg ref) = false.

(** A run whose low quotient is negative returns a result. *)
Definition negative_low_bound_returns
  (fft : nat -> list complex -> list complex)
  (file : list byte) (cfg : config) (ref : Q) : Prop :=
  (ref - 1) / cfg_resolution cfg < 0 ->
  succeeds (waveform_calibration fft file cfg ref) = true.

(** 100 MHz/us, 0.8 Msps, 4 samples per chirp: maximum range about 1.2 m. *)
Definition cfg_short : config := mkConfig 1 1 1 4 100 800.

(* ================================================================== *)
(** * The command-line script *)
(* ================================================================== *)

(** The body of [if __name__ == "__main__"], from the parsed arguments on.
    What it reads from the outside world is the [env]; what it does to it is
    the list of [event]s, in order.  Paths are POSIX paths, [os.sep] is "/". *)

Module Cli.

Import Stdlib.Strings.String Stdlib.Strings.Ascii.
Local Open Scope string_scope.

(** The result of [parser.parse_args()].  An option left out is [None];
    the four counts have the defaults 256, 16, 12 and 16. *)
Record args : Set := mkArgs {
  input : option string;
  output : option string;
  reference : option Q;
  num_samples : nat;
  num_chirp_loops : nat;
  num_tx : nat;
  num_rx : nat;
  coupling_flag : bool;
  calibration_config : option string;
  waveform_flag : bool
}.

Definition default_args : args :=
  mkArgs None None None 256 16 12 16 false None false.

(** [calib_context]: the counts of the command line, and the names of the
    data files once a calibration is done. *)
Inductive context_data : Set :=
| CouplingData (data : string)
| WaveformData (frequency phase : string).

Record context : Set := mkContext {
  ctx_ntx : nat;
  ctx_nrx : nat;
  ctx_data : context_data
}.

Inductive dtype : Set := F32 | F64.

Inductive event : Type :=
| Print (s : string)
| PrintHelp
| MakeDirs (path : string)
| Input (prompt : string)
| ToFile (path : string) (dt : dtype) (data : list float64)
| JsonDump (path : string) (ctx : context).

(** An exception nobody catches: one raised by the arithmetic of a
    calibration function, a file that cannot be opened or created, a
    configuration file that cannot be loaded, the end of the standard
    input. *)
Inductive uncaught : Set :=
| Calibration (e : exn)
| OSError (path : string)
| ConfigLoad (path : string)
| EOFError.

(** How the script ends: [exit(code)], a traceback, or the end of the file
    after [print_help]. *)
Inductive outcome : Set :=
| Exit (code : Z)
| Traceback (e : uncaught)
| Finished.


Record env : Type := mkEnv {
  path_exists : string -> bool;
  makedirs_ok : string -> bool;
  can_write : string -> bool;
  stdin_line : option string;
  file_bytes : string -> option (list byte);
  config_json : string -> option config
}.

Definition run : Type := list event * outcome.

Definition emit (e : event) (r : run) : run := (e :: fst r, snd r).

Definition stop (o : outcome) : run := ([], o).

(** ** Strings and paths *)

Definition sep : ascii := "/"%char.

(** [s.split(os.sep)] *)
Fixpoint split (s : string) : list string :=
  match s with
  | EmptyString => [EmptyString]
  | String c s' =>
      if (c =? sep)%char then EmptyString :: split s'
      else
        match split s' with
        | h :: t => String c h :: t
        | [] => [String c EmptyString]
        end
  end.

(** [os.sep.join(l)] *)
Definition join (l : list string) : string := concat "/" l.

(** [os.sep.join(args.input.split(os.sep)[:-1]) + os.sep + "calibration"] *)
Definition default_output (inp : string) : string :=
  join (removelast (split inp)) ++ "/" ++ "calibration".

Fixpoint ends_with_sep (s : string) : bool :=
  match s with
  | EmptyString => false
  | String c EmptyString => (c =? sep)%char
  | String _ s' => ends_with_sep s'
  end.

(** [os.path.join(a, b)] *)
Definition path_join (a b : string) : string :=
  if prefix "/" b then b
  else if (a =? "") || ends_with_sep a then a ++ b
  else a ++ "/" ++ b.

Definition lower_ascii (c : ascii) : ascii :=
  let n := nat_of_ascii c in
  if (65 <=? n)%nat && (n <=? 90)%nat then ascii_of_nat (n + 32) else c.

(** [s.lower()] on ASCII text. *)
Fixpoint lower (s : string) : string :=
  match s with
  | EmptyString => EmptyString
  | String c s' => String (lower_ascii c) (lower s')
  end.

(** [not s] for an argument that is [None] or a string. *)
Definition missing (o : option string) : bool :=
  match o with
  | None => true
  | Some s => (s =? "")
  end.

Definition nl : string := String (ascii_of_nat 10) EmptyString.

Definition coupling_notice : string :=
  nl ++ "Make sure that the input frame provided was recorded" ++ nl ++
  "when no target was in reach of the radar sensor." ++ nl.

Definition waveform_notice : string :=
  nl ++ "Make sure that the input frame provided was recorded" ++ nl ++
  "with a target (reflector) placed at the reference distance given." ++ nl.

Definition prompt : string := "Do you want to continue, Y/N? ".

(** ** Effects *)

(** [if not os.path.exists(out): os.makedirs(out, exist_ok=True)] *)
Definition ensure_dir (E : env) (out : string) (k : run) : run :=
  if path_exists E out then k
  else if makedirs_ok E out then emit (MakeDirs out) k
  else stop (Traceback (OSError out)).

(** [array.astype(dt).tofile(path)] *)
Definition to_file (E : env) (path : string) (dt : dtype)
  (data : list float64) (k : run) : run :=
  if can_write E path then emit (ToFile path dt data) k
  else stop (Traceback (OSError path)).

(** [with open(path, "w") as fh: json.dump(calib_context, fh, indent=2)] *)
Definition json_dump (E : env) (path : string) (ctx : context) (k : run)
  : run :=
  if can_write E path then emit (JsonDump path ctx) k
  else stop (Traceback (OSError path)).

(** [ack = str(input(prompt))], then the branch on [ack.lower() == 'y']. *)
Definition ask (E : env) (yes no : run) : run :=
  emit (Input prompt)
    match stdin_line E with
    | None => stop (Traceback EOFError)
    | Some ack => if (lower ack =? "y") then yes else no
    end.

Definition declined : run :=
  emit (Print "[INFO] No calibration data generated!") (stop (Exit 0)).

(** The values of an (ntx, nrx, 2) array of pairs in row-major order. *)
Definition ravel_pairs (m : list (list (float64 * float64))) : list float64 :=
  List.concat (map (fun p => [fst p; snd p]) (List.concat m)).

(** ** The two branches *)

(** The call of [coupling_calibration] on the file named [inp]. *)
Definition call_coupling (E : env) (a : args) (inp : string)
  : uncaught + list (list (list float64)) :=
  match file_bytes E inp with
  | None => inl (OSError inp)
  | Some bytes =>
      match coupling_calibration bytes (num_tx a) (num_rx a)
              (num_chirp_loops a) (num_samples a) with
      | Raise e => inl (Calibration e)
      | Ok m => inr m
      end
  end.

Definition coupling_branch (E : env) (a : args) (inp out : string) : run :=
  if (inp =? "") then
    emit (Print "[ERROR] No input file provided") (stop (Exit 1))
  else
    emit (Print coupling_notice)
      (ask E
         match call_coupling E a inp with
         | inl e => stop (Traceback e)
         | inr coupling_calib =>
             to_file E (path_join out "coupling_calibration.bin") F32
               (List.concat (List.concat coupling_calib))
               (json_dump E (path_join out "coupling_cfg.json")
                  (mkContext (num_tx a) (num_rx a)
                     (CouplingData "coupling_calibration.bin"))
                  (emit (Print "[INFO] Coupling calibration file generated!")
                     (stop (Exit 0))))
         end
         declined).

Section Fft.

Variable fft : nat -> list complex -> list complex.

(** The call of [waveform_calibration]: the configuration is loaded first,
    the window is computed from it, and only then is the frame file read. *)
Definition call_waveform (E : env) (inp cfg_path : string) (ref : Q)
  : uncaught +
    (list (list float64) * list (list (float64 * float64))) :=
  match config_json E cfg_path with
  | None => inl (ConfigLoad cfg_path)
  | Some cfg =>
      match file_bytes E inp with
      | Some bytes =>
          match waveform_calibration fft bytes cfg ref with
          | Raise e => inl (Calibration e)
          | Ok r => inr r
          end
      | None =>
          match window_of cfg ref with
          | Raise e => inl (Calibration e)
          | Ok _ => inl (OSError inp)
          end
      end
  end.

Definition waveform_branch (E : env) (a : args) (inp out : string) : run :=
  if (inp =? "") || missing (calibration_config a) then
    emit (Print "[ERROR] Missing input or calibration configuration file")
      (stop (Exit 1))
  else
    match reference a, calibration_config a with
    | Some ref, Some cfg_path =>
        emit (Print waveform_notice)
          (ask E
             match call_waveform E inp cfg_path ref with
             | inl e => stop (Traceback e)
             | inr (freq_calib, phase_calib) =>
                 to_file E (path_join out "frequency_calibration.bin") F64
                   (List.concat freq_calib)
                   (to_file E (path_join out "phase_amp_calibration.bin") F64
                      (ravel_pairs phase_calib)
                      (json_dump E (path_join out "waveform_calib_cfg.json")
                         (mkContext (num_tx a) (num_rx a)
                            (WaveformData "frequency_calibration.bin"
                               "phase_amp_calibration.bin"))
                         (emit
                            (Print
                               "[INFO] Frequency and Phase calibration files generated!")
                            (stop (Exit 0)))))
             end
             declined)
    | _, _ =>
        emit (Print "[ERROR] Missing distance to reference target")
          (stop (Exit 1))
    end.

Definition main (E : env) (a : args) : run :=
  match input a with
  | None => emit (Print "[ERROR] No input file!") (stop (Exit 1))
  | Some inp =>
      let out :=
        match output a with
        | None => default_output inp
        | Some o => o
        end in
      ensure_dir E out
        (if coupling_flag a then coupling_branch E a inp out
         else if waveform_flag a then waveform_branch E a inp out
         else emit PrintHelp (stop Finished))
  end.

End Fft.

(** ** What a trace contains *)

Definition is_write (e : event) : bool :=
  match e with
  | ToFile _ _ _ | JsonDump _ _ => true
  | _ => false
  end.

(** The user typed y or Y. *)
Definition consents (E : env) : Prop :=
  stdin_line E = Some "y" \/ stdin_line E = Some "Y".

(** The directory the run works in. *)
Definition output_dir (a : args) (inp : string) : string :=
  match output a with
  | None => default_output inp
  | Some o => o
  end.

(** A string without a separator. *)
Fixpoint no_sep (s : string) : bool :=
  match s with
  | EmptyString => true
  | String c s' => negb (c =? sep)%char && no_sep s'
  end.

(** An environment in which everything can be done: the file and the
    configuration are given, the user types [ack]. *)
Definition env_of (inp : string) (bytes : list byte) (cfg_path : string)
  (cfg : config) (ack : string) : env :=
  mkEnv (fun _ => false) (fun _ => true) (fun _ => true) (Some ack)
        (fun p => if (p =? inp) then Some bytes else None)
        (fun p => if (p =? cfg_path) then Some cfg else None).

(** Two sample runs: the coupling calibration of the small frame in
    [d/f.bin], and the waveform calibration of a frame of two antenna pairs
    with the counts of the command line left at their defaults. *)
Definition small_frame_env (ack : string) : env :=
  env_of "d/f.bin" (le16s [1; 2; 3; 4; 5; 6; 7; 8]%Z) "" (cfg4 1 1 1) ack.

Definition small_frame_args : args :=
  mkArgs (Some "d/f.bin") None None 2 2 1 1 true None false.

Definition two_pairs_env (ack : string) : env :=
  env_of "f.bin" (le16s (chirp_a ++ chirp_b)) "c.json" (cfg4 1 2 1) ack.

Definition two_pairs_args : args :=
  mkArgs (Some "f.bin") None (Some 2) 256 16 12 16 false (Some "c.json") true.

End Cli.

(* ================================================================== *)
(** * Further quantities *)
(* ================================================================== *)

(** The range of a signed 16-bit item. *)
Definition in_int16 (z : Z) : Prop := (-32768 <= z <= 32767)%Z.

(** A float64 that is finite and within the range of an int16. *)
Definition within_int16 (x : float64) : Prop :=
  exists q, x = Fin q /\ -32768 <= q <= 32767.

(** An [n] by [m] array. *)
Definition shape2 {A : Type} (n m : nat) (a : list (list A)) : Prop :=
  length a = n /\ Forall (fun row => length row = m) a.

(** A complex number scaled by a real gain. *)
Definition cscale (k : Q) (c : complex) : complex :=
  mkC (Qred (k * re c)) (Qred (k * im c)).

(** The product of two complex numbers given by their parts equals a third. *)
Definition cmul_is (a b : Q) (p r : complex) : Prop :=
  a * re p - b * im p == re r /\ a * im p + b * re p == im r.

(** The bound of a slice on an axis of [ns] samples, as an integer. *)
Definition clipped (ns : nat) (i : Z) : Z := clip (Z.of_nat ns) i.

(* ================================================================== *)
(** * The frame: item count and row-major layout *)
(* ================================================================== *)

Section Layout.

Context {A : Type}.
Implicit Types (l : list A) (d : A).

Lemma split_rows_length rows cols l :
  length (split_rows rows cols l) = rows.
Proof.
  revert l; induction rows as [|r IH]; intros l; simpl; [reflexivity|].
  now rewrite IH.
Qed.

(** Row [i] of the split is the window of [cols] items at offset
    [i * cols]. *)
Lemma split_rows_seq rows cols l :
  split_rows rows cols l =
  map (fun i => firstn cols (skipn (i * cols) l)) (seq 0 rows).
Proof.
  revert l; induction rows as [|r IH]; intros l; [reflexivity|].
  cbn [split_rows seq map]. f_equal.
  rewrite IH, <- seq_shift, map_map.
  apply map_ext; intros i.
  rewrite skipn_skipn. do 2 f_equal. lia.
Qed.

Lemma nth_window n off i l d :
  (i < n)%nat -> nth i (firstn n (skipn off l)) d = nth (off + i) l d.
Proof.
  intros Hi. rewrite nth_firstn.
  destruct (Nat.ltb_spec i n); [|lia].
  apply nth_skipn.
Qed.

Lemma nth_error_window n off i l :
  (i < n)%nat ->
  nth_error (firstn n (skipn off l)) i = nth_error l (off + i).
Proof.
  intros Hi. rewrite nth_error_firstn.
  destruct (Nat.ltb_spec i n); [|lia].
  apply nth_error_skipn.
Qed.

End Layout.

Lemma fromfile_int16_length bs :
  length (fromfile_int16 bs) = (length bs / 2)%nat.
Proof.
  assert (H : forall n bs, (length bs <= n)%nat ->
                           length (fromfile_int16 bs) = (length bs / 2)%nat).
  { clear bs. induction n as [|n IH]; intros bs Hn.
    - destruct bs; [reflexivity | simpl in Hn; lia].
    - destruct bs as [|b0 [|b1 t]]; [reflexivity | reflexivity |].
      cbn [fromfile_int16 length]. rewrite IH by (simpl in Hn; lia).
      change (S (S (length t))) with (1 * 2 + length t)%nat.
      rewrite Nat.div_add_l by lia. reflexivity. }
  apply (H (length bs)); lia.
Qed.

Lemma reshape5_raise a ntx nrx nc ns :
  length a <> (ntx * nrx * nc * ns * 2)%nat ->
  reshape5 a ntx nrx nc ns = Raise ValueError.
Proof.
  intros H. unfold reshape5.
  destruct (Nat.eqb_spec (length a) (ntx * nrx * nc * ns * 2)); congruence.
Qed.

Lemma true_divide_count total count :
  (0 < count)%nat ->
  true_divide (inject_Z total) (inject_Z (Z.of_nat count)) =
  mean_of total count.
Proof.
  intros H. unfold true_divide, mean_of.
  destruct (Qeq_bool (inject_Z (Z.of_nat count)) 0) eqn:E; [|reflexivity].
  apply Qeq_bool_eq in E. unfold Qeq in E. simpl in E. lia.
Qed.

Lemma block_sum a ntx nrx nc ns tx rx k :
  (tx < ntx)%nat -> (rx < nrx)%nat -> (k < 2)%nat ->
  zsum (map (fun chirp => zsum (map (fun s => nth k s 0%Z) chirp))
            (map (fun c => split_rows ns 2 c)
                 (split_rows nc (ns * 2)
                    (firstn (nc * ns * 2)
                       (skipn (rx * (nc * ns * 2))
                          (firstn (nrx * nc * ns * 2)
                             (skipn (tx * (nrx * nc * ns * 2)) a)))))))
  = raw_sum a nrx nc ns tx rx k.
Proof.
  intros Htx Hrx Hk. unfold raw_sum.
  rewrite split_rows_seq, !map_map. f_equal.
  apply map_ext_in; intros c Hc. apply in_seq in Hc.
  rewrite split_rows_seq, map_map. f_equal.
  apply map_ext_in; intros s Hs. apply in_seq in Hs.
  unfold raw.
  assert (H1 : (s * 2 + k < ns * 2)%nat) by lia.
  assert (H2 : (c * (ns * 2) + (s * 2 + k) < nc * ns * 2)%nat).
  { assert ((c + 1) * (ns * 2) <= nc * (ns * 2))%nat
      by (apply Nat.mul_le_mono_r; lia).
    lia. }
  assert (H3 : (rx * (nc * ns * 2) + (c * (ns * 2) + (s * 2 + k))
                < nrx * nc * ns * 2)%nat).
  { assert ((rx + 1) * (nc * ns * 2) <= nrx * (nc * ns * 2))%nat
      by (apply Nat.mul_le_mono_r; lia).
    lia. }
  rewrite !nth_window by assumption.
  f_equal. lia.
Qed.

Lemma nth_error_map_seq {B : Type} (f : nat -> B) n i :
  (i < n)%nat -> nth_error (map f (seq 0 n)) i = Some (f i).
Proof.
  intros H. rewrite nth_error_map, nth_error_seq.
  destruct (Nat.ltb_spec i n); [reflexivity | lia].
Qed.

Lemma load_frame_succeeds file ntx nrx nc ns :
  succeeds (load_frame file ntx nrx nc ns) = true <->
  (length file / 2 = ntx * nrx * nc * ns * 2)%nat.
Proof.
  unfold load_frame, reshape5. rewrite fromfile_int16_length.
  destruct (Nat.eqb_spec (length file / 2) (ntx * nrx * nc * ns * 2));
    cbn [succeeds]; split; intros; congruence.
Qed.

Lemma load_frame_raise file ntx nrx nc ns :
  (length file / 2 <> ntx * nrx * nc * ns * 2)%nat ->
  load_frame file ntx nrx nc ns = Raise ValueError.
Proof.
  intros H. apply reshape5_raise. now rewrite fromfile_int16_length.
Qed.

(* ================================================================== *)
(** * FrameLoader *)
(* ================================================================== *)

(** C4, as amended.  Loading a frame succeeds exactly when the number of
    complete 2-byte items of the file, [length file / 2], equals
    [ntx * nrx * nc * ns * 2]: a trailing odd byte is not read.  With any
    other item count the reshape raises [ValueError], no frame is produced,
    and both [coupling_calibration] and [waveform_calibration] fail. *)
Theorem load_frame_item_count (file : list byte) (ntx nrx nc ns : nat) :
  (succeeds (load_frame file ntx nrx nc ns) = true <->
   (length file / 2 = ntx * nrx * nc * ns * 2)%nat) /\
  ((length file / 2 <> ntx * nrx * nc * ns * 2)%nat ->
   load_frame file ntx nrx nc ns = Raise ValueError /\
   coupling_calibration file ntx nrx nc ns = Raise ValueError /\
   forall fft f_slope f_sample ref,
     succeeds (waveform_calibration fft file
                 (mkConfig ntx nrx nc ns f_slope f_sample) ref) = false).
Proof.
  split; [apply load_frame_succeeds|].
  intros H. pose proof (load_frame_raise file ntx nrx nc ns H) as E.
  split; [exact E|]. split.
  - unfold coupling_calibration. now rewrite E.
  - intros fft f_slope f_sample ref. unfold waveform_calibration.
    destruct (rres _) as [res|]; [|reflexivity]. cbn [bind].
    destruct (ref_bins res ref) as [bins|]; [|reflexivity]. cbn [bind].
    change (load_frame file _ _ _ _) with (load_frame file ntx nrx nc ns).
    now rewrite E.
Qed.

(** A file of five bytes is read as two items; a file of one byte holds no
    item. *)
Lemma load_frame_item_count_witness :
  succeeds (load_frame (le16s [1; 2]%Z ++ [x00]) 1 1 1 1) = true /\
  load_frame [x00] 1 1 1 1 = Raise ValueError.
Proof.
  split.
  - apply (proj1 (load_frame_item_count (le16s [1; 2]%Z ++ [x00]) 1 1 1 1)).
    reflexivity.
  - apply (proj2 (load_frame_item_count [x00] 1 1 1 1)).
    vm_compute. discriminate.
Defined.

(** C4, as stated, fails: a file of five bytes loads as the two items of a
    1 x 1 x 1 x 1 x 2 frame, although its length is not four bytes. *)
Lemma odd_byte_file_is_accepted :
  ~ accepts_exact_bytes (le16s [1; 2]%Z ++ [x00]) 1 1 1 1.
Proof.
  unfold accepts_exact_bytes. intros [H _].
  specialize (H eq_refl). discriminate H.
Qed.

(* ================================================================== *)
(** * CouplingEstimator *)
(* ================================================================== *)

(** The frame of the design document's example, 1 x 1 x 2 x 2 x 2 with the
    items 1 to 8: the I samples 1, 3, 5, 7 have mean 4, the Q samples
    2, 4, 6, 8 have mean 5. *)
Example coupling_small_frame :
  coupling_calibration (le16s [1; 2; 3; 4; 5; 6; 7; 8]%Z) 1 1 2 2 =
  Ok [[[Fin 4; Fin 5]]].
Proof. reflexivity. Qed.

(** C6.  On a well-formed frame the coupling matrix has one entry per
    antenna pair, [ntx] rows of [nrx] entries, and the entry of [(tx, rx)]
    is the arithmetic mean of the pair's raw I samples and the arithmetic
    mean of its raw Q samples over all [nc * ns] (chirp, sample) positions:
    a plain mean over these two axes, nothing else. *)
Theorem coupling_is_mean (file : list byte) (ntx nrx nc ns : nat) :
  (0 < nc)%nat -> (0 < ns)%nat ->
  (length file / 2 = ntx * nrx * nc * ns * 2)%nat ->
  exists m,
    coupling_calibration file ntx nrx nc ns = Ok m /\
    length m = ntx /\
    Forall (fun row => length row = nrx) m /\
    forall tx rx, (tx < ntx)%nat -> (rx < nrx)%nat ->
      item2 m tx rx =
      Ok [mean_of (raw_sum (fromfile_int16 file) nrx nc ns tx rx 0)
                  (nc * ns);
          mean_of (raw_sum (fromfile_int16 file) nrx nc ns tx rx 1)
                  (nc * ns)].
Proof.
  intros Hnc Hns Hlen.
  unfold coupling_calibration, load_frame, reshape5.
  rewrite fromfile_int16_length, Hlen, Nat.eqb_refl. cbn [bind].
  set (a := fromfile_int16 file).
  eexists; split; [reflexivity|]. split; [|split].
  - now rewrite !length_map, split_rows_length.
  - rewrite !Forall_map. apply Forall_forall; intros t _.
    now rewrite !length_map, split_rows_length.
  - intros tx rx Htx Hrx. unfold item2.
    rewrite (split_rows_seq ntx), !map_map, nth_error_map_seq by assumption.
    rewrite (split_rows_seq nrx), !map_map, nth_error_map_seq by assumption.
    unfold mean01. cbn [seq map].
    rewrite !block_sum with (ntx := ntx) by lia.
    rewrite !true_divide_count by lia.
    reflexivity.
Qed.

(** The small frame again, through the theorem. *)
Lemma coupling_is_mean_witness :
  exists m,
    coupling_calibration (le16s [1; 2; 3; 4; 5; 6; 7; 8]%Z) 1 1 2 2 = Ok m /\
    item2 m 0 0 = Ok [Fin 4; Fin 5].
Proof.
  destruct (coupling_is_mean (le16s [1; 2; 3; 4; 5; 6; 7; 8]%Z) 1 1 2 2)
    as [m [E [_ [_ H]]]]; [lia | lia | reflexivity |].
  exists m; split; [exact E|].
  rewrite (H 0%nat 0%nat) by lia. reflexivity.
Defined.

(* ================================================================== *)
(** * ReferenceWindowLocator *)
(* ================================================================== *)

Lemma ratio_of_ok a b : ~ b == 0 -> ratio_of a b = Ok (Qred (a / b)).
Proof.
  intros H. unfold ratio_of.
  destruct (Qeq_bool b 0) eqn:E; [|reflexivity].
  apply Qeq_bool_eq in E. contradiction.
Qed.

Lemma ratio_of_raise a b : b == 0 -> ratio_of a b = Raise ZeroDivisionError.
Proof.
  intros H. unfold ratio_of.
  destruct (Qeq_bool b 0) eqn:E; [reflexivity|].
  apply Qeq_bool_neq in E. contradiction.
Qed.


Lemma fslope_eq cfg :
  fslope cfg == frequencySlope_Mhz_us cfg * inject_Z (10 ^ 12).
Proof. unfold fslope. apply Qred_correct. Qed.

Lemma inject_nat_pos n : (0 < n)%nat -> 0 < inject_Z (Z.of_nat n).
Proof. intros H. unfold Qlt. simpl. lia. Qed.

(** ** Rounding toward zero *)

Lemma Qtruncate_nonneg x : 0 <= x -> Qtruncate x = Qfloor x.
Proof.
  intros H. unfold Qtruncate.
  apply Qle_bool_iff in H. now rewrite H.
Qed.

Lemma Qtruncate_negative x : x < 0 -> Qtruncate x = Qceiling x.
Proof.
  intros H. unfold Qtruncate.
  destruct (Qle_bool 0 x) eqn:E; [|reflexivity].
  apply Qle_bool_iff in E. lra.
Qed.

Lemma Qtruncate_Z z : Qtruncate (inject_Z z) = z.
Proof.
  unfold Qtruncate. destruct (Qle_bool 0 (inject_Z z));
    [apply Qfloor_Z | apply Qceiling_Z].
Qed.

Lemma Qtruncate_opp x : Qtruncate (- x) = (- Qtruncate x)%Z.
Proof.
  unfold Qtruncate.
  destruct (Qle_bool 0 x) eqn:A; destruct (Qle_bool 0 (- x)) eqn:B.
  - apply Qle_bool_iff in A, B.
    assert (E : x == 0) by lra.
    assert (E' : - x == 0) by lra.
    now rewrite (Qfloor_comp _ _ E), (Qfloor_comp _ _ E').
  - unfold Qceiling. now rewrite (Qfloor_comp _ _ (Qopp_opp x)).
  - unfold Qceiling. lia.
  - exfalso.
    assert (A' : ~ 0 <= x) by (intros H; apply Qle_bool_iff in H; congruence).
    assert (B' : ~ 0 <= - x)
      by (intros H; apply Qle_bool_iff in H; congruence).
    lra.
Qed.

Lemma Qtruncate_pos (n d : positive) :
  Qtruncate (Zpos n # d) = (Zpos n / Zpos d)%Z.
Proof. reflexivity. Qed.

Lemma Qceiling_negative x : (Qceiling x < 0)%Z <-> x <= -1.
Proof.
  split; intros H.
  - pose proof (Qle_ceiling x) as Hc.
    assert (Hz : inject_Z (Qceiling x) <= inject_Z (-1))
      by (rewrite <- Zle_Qle; lia).
    change (inject_Z (-1)) with (-1) in Hz. lra.
  - pose proof (Qceiling_resp_le x (-1) H) as Hc.
    change (Qceiling (-1)) with (-1)%Z in Hc. lia.
Qed.

(** ** [int] on a float *)

(** When [int] returns, it returns the exact value of the float rounded
    toward zero. *)
Lemma int_truncates x z : int x = Ok z -> z = Qtruncate (as_integer_ratio x).
Proof.
  unfold int, as_integer_ratio.
  destruct (FloatOps.Prim2SF x) as [s|s| |s m e]; try discriminate.
  - intros H. injection H as <-. reflexivity.
  - intros H. injection H as <-.
    assert (E : Qtruncate
                  match e with
                  | Zneg k => Zpos m # 2 ^ k
                  | _ => inject_Z (Zpos m * 2 ^ e)
                  end =
                match e with
                | Zneg k => (Zpos m / 2 ^ Zpos k)%Z
                | _ => (Zpos m * 2 ^ e)%Z
                end).
    { destruct e as [|k|k]; try apply Qtruncate_Z.
      rewrite Qtruncate_pos. now rewrite Pos2Z.inj_pow. }
    destruct s; [rewrite Qtruncate_opp|]; now rewrite E.
Qed.

Lemma int_raises x e : int x = Raise e -> e = ValueError \/ e = OverflowError.
Proof.
  unfold int. destruct (FloatOps.Prim2SF x) as [s|s| |s m k];
    intros H; try discriminate H; injection H as <-; auto.
Qed.

Lemma truediv_inv a b q :
  truediv a b = Ok q -> PrimFloat.is_zero b = false /\ q = (a / b)%float.
Proof.
  unfold truediv. destruct (PrimFloat.is_zero b); [discriminate|].
  intros H. injection H as <-. auto.
Qed.

Lemma truediv_raises a b e : truediv a b = Raise e -> e = ZeroDivisionError.
Proof.
  unfold truediv. destruct (PrimFloat.is_zero b); [|discriminate].
  intros H. now injection H as <-.
Qed.


Lemma as_float_raises q e : as_float q = Raise e -> e = OverflowError.
Proof.
  unfold as_float. destruct (is_finite (to_float q)); [discriminate|].
  intros H. now injection H as <-.
Qed.

Lemma as_float_zero q : q == 0 -> as_float q = Ok zero.
Proof.
  intros H. unfold as_float, to_float, nearest.
  assert (E : Qnum q = 0%Z).
  { destruct q as [n d]. unfold Qeq in H. cbn in *. lia. }
  rewrite E. reflexivity.
Qed.

(** ** Binary64 facts *)

Section Rounding.

Import SpecFloat.






End Rounding.

Section Binary64.

Import SpecFloat FloatOps FloatAxioms.


Lemma is_finite_Prim2SF x :
  is_finite x =
  match Prim2SF x with
  | S754_nan | S754_infinity _ => false
  | _ => true
  end.
Proof.
  unfold is_finite, is_nan, is_infinity.
  rewrite !eqb_spec, abs_spec.
  change (Prim2SF infinity) with (S754_infinity false).
  destruct (Prim2SF x) as [s|s| |s m e]; try reflexivity.
  - destruct s; reflexivity.
  - unfold SFeqb, SFcompare, SFabs.
    rewrite Z.compare_refl, Pos.compare_cont_refl.
    destruct s; reflexivity.
Qed.

Lemma negative_Prim2SF x :
  negative x <->
  match Prim2SF x with
  | S754_infinity s | S754_finite s _ _ => s = true
  | _ => False
  end.
Proof.
  unfold negative. rewrite ltb_spec.
  change (Prim2SF 0) with (S754_zero false).
  destruct (Prim2SF x) as [s|s| |s m e]; cbn;
    try destruct s; split; intros H; try reflexivity; try discriminate H;
    try contradiction.
Qed.






(** [int] returns on the finite floats, and on them only. *)
Lemma int_finite x : is_finite x = true <-> exists z, int x = Ok z.
Proof.
  rewrite is_finite_Prim2SF. unfold int.
  destruct (Prim2SF x) as [s|s| |s m e]; split;
    try (intros [z H]; discriminate H); try discriminate; eauto.
Qed.

Lemma int_of_infinity x :
  is_finite x = false -> negative x -> int x = Raise OverflowError.
Proof.
  rewrite is_finite_Prim2SF, negative_Prim2SF. unfold int.
  destruct (Prim2SF x) as [s|s| |s m e]; try discriminate;
    try contradiction. reflexivity.
Qed.

Lemma negative_ratio x :
  is_finite x = true -> negative x -> as_integer_ratio x < 0.
Proof.
  rewrite is_finite_Prim2SF, negative_Prim2SF. unfold as_integer_ratio.
  destruct (Prim2SF x) as [s|s| |s m e]; try discriminate;
    try contradiction.
  intros _ ->.
  destruct e as [|k|k].
  - reflexivity.
  - assert (P : (0 < 2 ^ Z.pos k)%Z) by (apply Z.pow_pos_nonneg; lia).
    unfold Qlt, inject_Z, Qopp. cbn [Qnum Qden]. nia.
  - reflexivity.
Qed.

End Binary64.

(** ** The window computation, step by step *)

(** A range resolution that is returned is the formula's value on the
    converted configuration. *)
Lemma rres_inv cfg res :
  rres cfg = Ok res ->
  exists f_sample f_slope nsample,
    fsample64 cfg = Ok f_sample /\ fslope64 cfg = Ok f_slope /\
    as_float (inject_Z (Z.of_nat (numAdcSamples cfg))) = Ok nsample /\
    PrimFloat.is_zero (2 * f_slope) = false /\ PrimFloat.is_zero nsample = false /\
    res = resolution64 f_sample f_slope nsample.
Proof.
  unfold rres, rmax.
  destruct (fslope64 cfg) as [fl|] eqn:El; [|discriminate]. cbn [bind].
  destruct (fsample64 cfg) as [fs|] eqn:Es; [|discriminate]. cbn [bind].
  destruct (truediv (fs * 299792458) (2 * fl)) as [m|] eqn:Em;
    [|discriminate]. cbn [bind].
  destruct (as_float _) as [n|] eqn:En; [|discriminate]. cbn [bind].
  intros H.
  destruct (truediv_inv _ _ _ Em) as [Z2 ->].
  destruct (truediv_inv _ _ _ H) as [Zn ->].
  exists fs, fl, n. repeat split; auto.
Qed.

Lemma ref_bins_inv res ref lo hi :
  ref_bins res ref = Ok (lo, hi) ->
  PrimFloat.is_zero res = false /\
  int ((to_float ref - 1) / res)%float = Ok lo /\
  int ((to_float ref + 1) / res)%float = Ok hi.
Proof.
  unfold ref_bins.
  destruct (truediv (to_float ref - 1) res) as [a|] eqn:Ea; [|discriminate].
  cbn [bind].
  destruct (int a) as [l|] eqn:El; [|discriminate]. cbn [bind].
  destruct (truediv (to_float ref + 1) res) as [b|] eqn:Eb; [|discriminate].
  cbn [bind].
  destruct (int b) as [h|] eqn:Eh; [|discriminate]. cbn [bind].
  intros H. injection H as <- <-.
  destruct (truediv_inv _ _ _ Ea) as [Zr ->].
  destruct (truediv_inv _ _ _ Eb) as [_ ->]. auto.
Qed.

Lemma window_of_inv cfg ref lo hi :
  window_of cfg ref = Ok (lo, hi) ->
  exists res,
    rres cfg = Ok res /\ ref_bins res ref = Ok (lo, hi).
Proof.
  unfold window_of. destruct (rres cfg) as [res|]; [|discriminate].
  cbn [bind]. eauto.
Qed.

(** The window computation raises nothing but the errors of the float
    operations. *)
Lemma window_of_raises cfg ref e :
  window_of cfg ref = Raise e ->
  e = ZeroDivisionError \/ e = OverflowError \/ e = ValueError.
Proof.
  unfold window_of, rres, rmax, fslope64, fsample64, ref_bins.
  repeat
    match goal with
    | |- context [as_float ?q] =>
        let E := fresh "E" in
        destruct (as_float q) eqn:E;
        [|apply as_float_raises in E; subst; cbn [bind];
          intros H; injection H as <-; auto]
    | |- context [truediv ?a ?b] =>
        let E := fresh "E" in
        destruct (truediv a b) eqn:E;
        [|apply truediv_raises in E; subst; cbn [bind];
          intros H; injection H as <-; auto]
    | |- context [int ?a] =>
        let E := fresh "E" in
        destruct (int a) eqn:E;
        [|apply int_raises in E; cbn [bind];
          intros H; injection H as <-; tauto]
    | _ => progress cbn [bind]
    end.
  discriminate.
Qed.

(** A window is computed only for a non-zero frequency slope. *)
Lemma window_of_slope cfg ref bins :
  window_of cfg ref = Ok bins -> ~ frequencySlope_Mhz_us cfg == 0.
Proof.
  intros H Hz. destruct bins as [lo hi].
  destruct (window_of_inv _ _ _ _ H) as [res [Er _]].
  destruct (rres_inv _ _ Er) as [fs [fl [n [_ [El [_ [Z2 _]]]]]]].
  unfold fslope64 in El. rewrite (as_float_zero _ Hz) in El.
  cbn [bind] in El. injection El as <-.
  vm_compute in Z2. discriminate Z2.
Qed.


(** Conversely, with a range resolution that is not zero and two finite
    quotients the window is returned. *)
Lemma window_of_computed cfg ref res :
  rres cfg = Ok res -> PrimFloat.is_zero res = false ->
  is_finite ((to_float ref - 1) / res) = true ->
  is_finite ((to_float ref + 1) / res) = true ->
  window_of cfg ref =
  Ok (Qtruncate (as_integer_ratio ((to_float ref - 1) / res)),
      Qtruncate (as_integer_ratio ((to_float ref + 1) / res))).
Proof.
  intros Er Hz Hl Hh. unfold window_of, ref_bins, truediv.
  rewrite Er. cbn [bind]. rewrite Hz. cbn [bind].
  apply int_finite in Hl, Hh.
  destruct Hl as [lo Hl], Hh as [hi Hh].
  rewrite Hl. cbn [bind]. rewrite Hh. cbn [bind].
  now rewrite <- (int_truncates _ _ Hl), <- (int_truncates _ _ Hh).
Qed.

(** C5, as amended.  Whenever the program computes a window, its bounds are
    the two quotients [(ref - 1) / resolution] and [(ref + 1) / resolution]
    rounded toward zero, where every operation is the binary64 one: the
    resolution is the formula's value in binary64 on the configuration's
    numbers converted to Hz and Hz/s, the quotients are the binary64
    quotients, both finite, and what is rounded toward zero is their exact
    value.  A bound is the floor of its quotient when the quotient is not
    negative. *)
Theorem window_bounds_truncate (cfg : config) (ref : Q) (lo hi : Z) :
  window_of cfg ref = Ok (lo, hi) ->
  exists f_sample f_slope nsample,
    fsample64 cfg = Ok f_sample /\ fslope64 cfg = Ok f_slope /\
    as_float (inject_Z (Z.of_nat (numAdcSamples cfg))) = Ok nsample /\
    let res := resolution64 f_sample f_slope nsample in
    let ql := ((to_float ref - 1) / res)%float in
    let qh := ((to_float ref + 1) / res)%float in
    is_finite ql = true /\ is_finite qh = true /\
    lo = Qtruncate (as_integer_ratio ql) /\
    hi = Qtruncate (as_integer_ratio qh) /\
    (0 <= as_integer_ratio ql -> lo = Qfloor (as_integer_ratio ql)) /\
    (0 <= as_integer_ratio qh -> hi = Qfloor (as_integer_ratio qh)).
Proof.
  intros H.
  destruct (window_of_inv _ _ _ _ H) as [res [Er Eb]].
  destruct (rres_inv _ _ Er) as [fs [fl [n [Es [El [En [_ [_ ->]]]]]]]].
  destruct (ref_bins_inv _ _ _ _ Eb) as [_ [Il Ih]].
  exists fs, fl, n. split; [exact Es|]. split; [exact El|].
  split; [exact En|]. cbv zeta.
  pose proof (int_truncates _ _ Il) as Tl.
  pose proof (int_truncates _ _ Ih) as Th.
  split; [apply int_finite; eauto|]. split; [apply int_finite; eauto|].
  split; [exact Tl|]. split; [exact Th|].
  split; intros P; [rewrite Tl | rewrite Th]; now apply Qtruncate_nonneg.
Qed.

(** At 2 m the window is [1, 4). *)
Lemma window_bounds_truncate_witness :
  exists f_sample f_slope nsample,
    fsample64 (cfg4 1 1 1) = Ok f_sample /\
    fslope64 (cfg4 1 1 1) = Ok f_slope /\
    as_float (inject_Z (Z.of_nat (numAdcSamples (cfg4 1 1 1)))) = Ok nsample /\
    let res := resolution64 f_sample f_slope nsample in
    let ql := ((to_float 2 - 1) / res)%float in
    let qh := ((to_float 2 + 1) / res)%float in
    is_finite ql = true /\ is_finite qh = true /\
    1%Z = Qtruncate (as_integer_ratio ql) /\
    4%Z = Qtruncate (as_integer_ratio qh) /\
    (0 <= as_integer_ratio ql -> 1%Z = Qfloor (as_integer_ratio ql)) /\
    (0 <= as_integer_ratio qh -> 4%Z = Qfloor (as_integer_ratio qh)).
Proof.
  apply (window_bounds_truncate (cfg4 1 1 1) 2 1 4).
  vm_compute. reflexivity.
Defined.

(** C5, as stated, fails below one metre, for a configuration with positive
    slope, sampling frequency and sample count: at half a metre the low
    quotient is about -0.67, in binary64 as in the reals, which the program
    rounds to 0 and the floor to -1. *)
Lemma window_below_one_metre_is_not_floor :
  0 < frequencySlope_Mhz_us (cfg4 1 1 1) /\
  0 < adcSamplingFrequency_ksps (cfg4 1 1 1) /\
  (0 < numAdcSamples (cfg4 1 1 1))%nat /\
  window_of (cfg4 1 1 1) (1 # 2) = Ok (0, 2)%Z /\
  floor_window (cfg_resolution (cfg4 1 1 1)) (1 # 2) = (-1, 2)%Z /\
  (exists res,
     rres (cfg4 1 1 1) = Ok res /\
     Qfloor (as_integer_ratio ((to_float (1 # 2) - 1) / res)) = (-1)%Z) /\
  window_of (cfg4 1 1 1) (1 # 2) <>
  Ok (floor_window (cfg_resolution (cfg4 1 1 1)) (1 # 2)).
Proof.
  assert (E1 : window_of (cfg4 1 1 1) (1 # 2) = Ok (0, 2)%Z)
    by (vm_compute; reflexivity).
  assert (E2 : floor_window (cfg_resolution (cfg4 1 1 1)) (1 # 2)
               = (-1, 2)%Z) by (vm_compute; reflexivity).
  split; [reflexivity|]. split; [reflexivity|]. split; [simpl; lia|].
  split; [exact E1|]. split; [exact E2|]. split.
  - eexists. split; vm_compute; reflexivity.
  - rewrite E1, E2. discriminate.
Qed.

(** The rounding of the float operations can move a bound.  At
    ref = 1.9979245799999998 the real quotient [(ref + 1) / resolution] is
    just below 4, and the binary64 quotient is 4: the window is [1, 4), not
    [1, 3). *)
Example rounding_moves_a_bound :
  window_of (cfg4 1 1 1) (19979245799999998 # 10000000000000000)
  = Ok (1, 4)%Z /\
  truncate_window (cfg_resolution (cfg4 1 1 1))
    (19979245799999998 # 10000000000000000) = (1, 3)%Z.
Proof. split; vm_compute; reflexivity. Qed.

(** A quotient beyond the float range is an infinity, on which [int]
    raises. *)
Example infinite_quotient_overflows :
  window_of (cfg4 1 1 1) (inject_Z (3 * 2 ^ 1022)) = Raise OverflowError /\
  window_of (cfg4 1 1 1) (inject_Z (- 3 * 2 ^ 1022)) = Raise OverflowError.
Proof. split; vm_compute; reflexivity. Qed.

(** So does an integer of the configuration beyond the float range. *)
Example configuration_integer_overflows :
  window_of (mkConfig 1 1 1 4 (inject_Z (10 ^ 400)) 2000) 2
  = Raise OverflowError.
Proof. vm_compute. reflexivity. Qed.

(* ================================================================== *)
(** * Peak search *)
(* ================================================================== *)

Lemma cgt_iff a b : cgt a b = true <-> lex_gt a b.
Proof.
  unfold cgt, lex_gt.
  destruct (re a ?= re b) eqn:Er.
  - apply Qeq_alt in Er.
    destruct (im a ?= im b) eqn:Ei.
    + apply Qeq_alt in Ei. split; [discriminate | lra].
    + apply Qlt_alt in Ei. split; [discriminate | lra].
    + apply Qgt_alt in Ei. split; [intros _; right; split; lra | reflexivity].
  - apply Qlt_alt in Er. split; [discriminate | lra].
  - apply Qgt_alt in Er. split; [intros _; left; lra | reflexivity].
Qed.

Lemma cgt_false_iff a b : cgt a b = false <-> ~ lex_gt a b.
Proof.
  rewrite <- cgt_iff. destruct (cgt a b); split; intros; congruence.
Qed.

Lemma cge_cgt a b : cge a b = negb (cgt b a).
Proof.
  unfold cge, cgt.
  rewrite <- (Qcompare_antisym (re a) (re b)).
  rewrite <- (Qcompare_antisym (im a) (im b)).
  destruct (re a ?= re b), (im a ?= im b); reflexivity.
Qed.

Lemma cgt_irrefl a : cgt a a = false.
Proof. apply cgt_false_iff. unfold lex_gt. lra. Qed.

(** Whatever is not above [m] is below whatever is above [m]. *)
Lemma cgt_above x y m : cgt y m = false -> cgt x m = true -> cgt x y = true.
Proof.
  rewrite cgt_false_iff, !cgt_iff. unfold lex_gt. lra.
Qed.

Lemma cgt_not_above x y m :
  cgt y m = false -> cgt x m = true -> cgt y x = false.
Proof.
  rewrite !cgt_false_iff, cgt_iff. unfold lex_gt. lra.
Qed.

(** The invariant of the [argmax] loop.  [seen] are the elements already
    visited, [mp] the first maximal one among them, at position [mi]. *)
Lemma argmax_loop_spec l : forall seen mp mi,
  nth_error seen mi = Some mp ->
  (forall k x, nth_error seen k = Some x -> cgt x mp = false) ->
  (forall k x, (k < mi)%nat -> nth_error seen k = Some x -> cgt mp x = true) ->
  let r := argmax_loop mp mi (length seen) l in
  let p := fold_left maximum l mp in
  nth_error (seen ++ l) r = Some p /\
  (forall k x, nth_error (seen ++ l) k = Some x -> cgt x p = false) /\
  (forall k x, (k < r)%nat -> nth_error (seen ++ l) k = Some x ->
               cgt p x = true).
Proof.
  induction l as [|x t IH]; intros seen mp mi Hmi Hmax Hfirst.
  - cbn. rewrite app_nil_r. auto.
  - cbv zeta. cbn [argmax_loop fold_left].
    replace (maximum mp x) with (if cgt x mp then x else mp)
      by (unfold maximum; rewrite cge_cgt; now destruct (cgt x mp)).
    assert (Hlen : length (seen ++ [x]) = S (length seen))
      by (rewrite length_app; simpl; lia).
    assert (Happ : seen ++ x :: t = (seen ++ [x]) ++ t)
      by (rewrite <- app_assoc; reflexivity).
    assert (Hsplit : forall k y, nth_error (seen ++ [x]) k = Some y ->
              nth_error seen k = Some y \/ (k = length seen /\ y = x)).
    { intros k y Hk. destruct (Nat.lt_ge_cases k (length seen)) as [Hlt|Hge].
      - rewrite nth_error_app1 in Hk by exact Hlt. now left.
      - rewrite nth_error_app2 in Hk by exact Hge.
        destruct (k - length seen)%nat as [|j] eqn:Ej; cbn in Hk.
        + right. split; [lia | congruence].
        + destruct j; discriminate. }
    destruct (cgt x mp) eqn:Ex.
    + rewrite Happ, <- Hlen. apply IH.
      * rewrite nth_error_app2 by lia. now rewrite Nat.sub_diag.
      * intros k y Hk. destruct (Hsplit k y Hk) as [Hs|[_ ->]].
        -- eapply cgt_not_above; [eapply Hmax; exact Hs | exact Ex].
        -- apply cgt_irrefl.
      * intros k y Hlt Hk. destruct (Hsplit k y Hk) as [Hs|[Hk' _]]; [|lia].
        eapply cgt_above; [eapply Hmax; exact Hs | exact Ex].
    + rewrite Happ, <- Hlen. apply IH.
      * rewrite nth_error_app1; [exact Hmi|].
        apply nth_error_Some. congruence.
      * intros k y Hk. destruct (Hsplit k y Hk) as [Hs|[_ ->]].
        -- eapply Hmax; exact Hs.
        -- exact Ex.
      * intros k y Hlt Hk. destruct (Hsplit k y Hk) as [Hs|[Hk' _]].
        -- eapply Hfirst; [exact Hlt | exact Hs].
        -- exfalso.
           assert (mi < length seen)%nat
             by (apply nth_error_Some; congruence).
           lia.
Qed.

(** [argmax] and [amax] of a non-empty axis: the position is that of the
    first element that nothing exceeds, the value is the element there. *)
Lemma argmax_amax l :
  l <> [] ->
  exists r, argmax l = Z.of_nat r /\
    nth_error l r = Some (amax l) /\
    (forall k x, nth_error l k = Some x -> cgt x (amax l) = false) /\
    (forall k x, (k < r)%nat -> nth_error l k = Some x ->
                 cgt (amax l) x = true).
Proof.
  destruct l as [|x t]; [congruence|]. intros _.
  exists (argmax_loop x 0 1 t). split; [reflexivity|].
  apply (argmax_loop_spec t [x] x 0).
  - reflexivity.
  - intros [|[|k]] y Hk; cbn in Hk; try discriminate.
    injection Hk as <-. apply cgt_irrefl.
  - intros k y Hk. lia.
Qed.

Lemma clip_range n i : (0 <= n)%Z -> (0 <= clip n i <= n)%Z.
Proof. intros H. unfold clip. destruct (Z.ltb_spec i 0); lia. Qed.

Lemma clip_inside n i : (0 <= i <= n)%Z -> clip n i = i.
Proof.
  intros H. unfold clip. destruct (Z.ltb_spec i 0); lia.
Qed.

Lemma slice_length {A : Type} (l : list A) lo hi :
  length (slice l lo hi) = slice_len (Z.of_nat (length l)) lo hi.
Proof.
  unfold slice, slice_len, slice_start.
  rewrite length_firstn, length_skipn.
  pose proof (clip_range (Z.of_nat (length l)) lo (Nat2Z.is_nonneg _)).
  pose proof (clip_range (Z.of_nat (length l)) hi (Nat2Z.is_nonneg _)).
  lia.
Qed.

Lemma slice_nth_error {A : Type} (l : list A) lo hi k :
  (k < slice_len (Z.of_nat (length l)) lo hi)%nat ->
  nth_error (slice l lo hi) k =
  nth_error l (slice_start (Z.of_nat (length l)) lo + k).
Proof. intros H. unfold slice. now apply nth_error_window. Qed.

Lemma item2_map2 {A B : Type} (f : A -> B) m i j :
  item2 (map (map f) m) i j =
  match item2 m i j with Ok x => Ok (f x) | Raise e => Raise e end.
Proof.
  unfold item2. rewrite nth_error_map.
  destruct (nth_error m i) as [row|]; [|reflexivity]. cbn [option_map].
  rewrite nth_error_map. now destruct (nth_error row j).
Qed.

(** The peak search on the slice Python takes for any two bounds: the
    selected index counts from the start of the slice. *)
Lemma peak_search_spec rfft ns lo hi :
  slice_len (Z.of_nat ns) lo hi <> 0%nat ->
  exists peaks_idx peaks,
    peak_search rfft ns (lo, hi) = Ok (peaks_idx, peaks) /\
    forall tx rx row,
      item2 rfft tx rx = Ok row -> length row = ns ->
      exists r peak,
        item2 peaks_idx tx rx = Ok (Z.of_nat r) /\
        item2 peaks tx rx = Ok peak /\
        (r < slice_len (Z.of_nat ns) lo hi)%nat /\
        nth_error row (slice_start (Z.of_nat ns) lo + r) = Some peak /\
        (forall k x, (k < slice_len (Z.of_nat ns) lo hi)%nat ->
           nth_error row (slice_start (Z.of_nat ns) lo + k) = Some x ->
           cgt x peak = false) /\
        (forall k x, (k < r)%nat ->
           nth_error row (slice_start (Z.of_nat ns) lo + k) = Some x ->
           cgt peak x = true).
Proof.
  intros Hlen. unfold peak_search.
  destruct (Nat.eqb_spec (slice_len (Z.of_nat ns) lo hi) 0); [contradiction|].
  do 2 eexists; split; [reflexivity|].
  intros tx rx row Hrow Hns.
  rewrite !item2_map2, Hrow.
  assert (Hne : slice row lo hi <> []).
  { intros E. apply (f_equal (@length _)) in E.
    rewrite slice_length, Hns in E. simpl in E. contradiction. }
  destruct (argmax_amax _ Hne) as [r [Er [Hr [Hmax Hfirst]]]].
  assert (Hlt : (r < slice_len (Z.of_nat ns) lo hi)%nat).
  { rewrite <- Hns, <- slice_length. apply nth_error_Some. congruence. }
  exists r, (amax (slice row lo hi)).
  rewrite Er. repeat split; try assumption.
  - rewrite <- Hr, slice_nth_error; rewrite Hns; [reflexivity | exact Hlt].
  - intros k x Hk Hx. apply (Hmax k).
    rewrite slice_nth_error; rewrite Hns; assumption.
  - intros k x Hk Hx. apply (Hfirst k); [exact Hk|].
    rewrite slice_nth_error; rewrite Hns; [assumption | lia].
Qed.

(** What lines 71 and 72 select.  For a non-empty window [lo, hi) inside the
    sample axis, the index selected for each antenna pair counts from [lo],
    and the maximum is taken in NumPy's order on complex numbers, by real
    part and then by imaginary part: [peak] is the range profile at the
    absolute bin [lo + idx], no bin of the window has a value above [peak] in
    that order, and every earlier bin of the window is strictly below it. *)
Lemma peak_is_first_lexicographic_maximum
  (rfft : list (list (list complex))) (ns : nat) (lo hi : Z)
  (tx rx : nat) (row : list complex) :
  (0 <= lo < hi)%Z -> (hi <= Z.of_nat ns)%Z ->
  item2 rfft tx rx = Ok row -> length row = ns ->
  exists peaks_idx peaks idx peak,
    peak_search rfft ns (lo, hi) = Ok (peaks_idx, peaks) /\
    item2 peaks_idx tx rx = Ok idx /\
    item2 peaks tx rx = Ok peak /\
    (0 <= idx < hi - lo)%Z /\
    nth_error row (Z.to_nat (lo + idx)) = Some peak /\
    (forall k x, (lo <= k < hi)%Z ->
       nth_error row (Z.to_nat k) = Some x -> ~ lex_gt x peak) /\
    (forall k x, (lo <= k < lo + idx)%Z ->
       nth_error row (Z.to_nat k) = Some x -> lex_gt peak x).
Proof.
  intros Hlo Hhi Hrow Hns.
  assert (Hs : slice_start (Z.of_nat ns) lo = Z.to_nat lo)
    by (unfold slice_start; rewrite clip_inside by lia; reflexivity).
  assert (Hl : slice_len (Z.of_nat ns) lo hi = Z.to_nat (hi - lo))
    by (unfold slice_len; rewrite !clip_inside by lia; reflexivity).
  destruct (peak_search_spec rfft ns lo hi) as [pi [pk [E H]]];
    [rewrite Hl; lia|].
  destruct (H tx rx row Hrow Hns) as [r [peak [Ei [Ep [Hr [Hv [Hmax Hfst]]]]]]].
  rewrite Hs in *. rewrite Hl in *.
  exists pi, pk, (Z.of_nat r), peak.
  repeat split; try assumption; try lia.
  - replace (Z.to_nat (lo + Z.of_nat r)) with (Z.to_nat lo + r)%nat by lia.
    exact Hv.
  - intros k x Hk Hx. apply cgt_false_iff.
    apply (Hmax (Z.to_nat (k - lo))); [lia|].
    replace (Z.to_nat lo + Z.to_nat (k - lo))%nat with (Z.to_nat k) by lia.
    exact Hx.
  - intros k x Hk Hx. apply cgt_iff.
    apply (Hfst (Z.to_nat (k - lo))); [lia|].
    replace (Z.to_nat lo + Z.to_nat (k - lo))%nat with (Z.to_nat k) by lia.
    exact Hx.
Qed.

(** The spectrum 0, 4, 20j, 0 and the window [1, 3). *)
Example first_lexicographic_maximum_of_spectrum_a :
  exists peaks_idx peaks idx peak,
    peak_search [[spectrum_a]] 4 (1, 3)%Z = Ok (peaks_idx, peaks) /\
    item2 peaks_idx 0 0 = Ok idx /\
    item2 peaks 0 0 = Ok peak /\
    (0 <= idx < 3 - 1)%Z /\
    nth_error spectrum_a (Z.to_nat (1 + idx)) = Some peak /\
    (forall k x, (1 <= k < 3)%Z ->
       nth_error spectrum_a (Z.to_nat k) = Some x -> ~ lex_gt x peak) /\
    (forall k x, (1 <= k < 1 + idx)%Z ->
       nth_error spectrum_a (Z.to_nat k) = Some x -> lex_gt peak x).
Proof.
  apply (peak_is_first_lexicographic_maximum [[spectrum_a]] 4 1 3 0 0
           spectrum_a);
    [lia | simpl; lia | reflexivity | reflexivity].
Defined.

(** [chirp_a] is a frame with the spectrum 0, 4, 20j, 0. *)
Example range_profile_chirp_a :
  (frame <- load_frame (le16s chirp_a) 1 1 1 4 ;;
   Ok (range_profile dft 4 frame)) = Ok [[spectrum_a]].
Proof. vm_compute. reflexivity. Qed.

(** On the spectrum 0, 4, 20j, 0 and the window [1, 3) the program selects
    index 0 and the value 4: the index is not a bin of the window, and the
    value is not of maximal magnitude there, bin 2 holding 20j; so the
    selected pair is a magnitude peak neither at the selected index nor at
    that index counted from the low bound. *)
Lemma peak_is_not_magnitude_maximum :
  peak_search [[spectrum_a]] 4 (1, 3)%Z = Ok ([[0%Z]], [[mkC 4 0]]) /\
  ~ magnitude_peak spectrum_a 1 3 0 (mkC 4 0) /\
  ~ magnitude_peak spectrum_a 1 3 (1 + 0) (mkC 4 0).
Proof.
  split; [vm_compute; reflexivity|]. split.
  - intros [H _]. lia.
  - intros [_ [_ H]].
    specialize (H 2%Z (mkC 0 20) ltac:(lia) eq_refl).
    vm_compute in H. apply H. reflexivity.
Qed.

(** C1: the program departs from the claim.  Lines 71 and 72 search the
    peak with [np.argmax] and [np.max] on the complex range profile itself;
    no magnitude is taken, so the values are compared by real part and then
    by imaginary part.  The frame here has two antenna pairs with the
    spectra 0, 4, 20j, 0 and 0, 0, 20j, 0, and the reference distance of 2 m
    gives the window [1, 4).  Both pairs have their magnitude peak, 20j, at
    bin 2.  The program selects the value 4 at index 0 of the window, bin 1,
    for the first pair, and 20j at index 1, bin 2, for the second, and
    returns a frequency entry that is not zero and the phase/amplitude entry
    4 / 20j for the second pair; the magnitude peaks give the frequency
    entry 0 and the phase/amplitude entry (1, 0). *)
Theorem peak_search_ignores_magnitude :
  window_of (cfg4 1 2 1) 2 = Ok (1, 4)%Z /\
  (frame <- load_frame (le16s (chirp_a ++ chirp_b)) 1 2 1 4 ;;
   Ok (range_profile dft 4 frame)) = Ok [[spectrum_a; spectrum_b]] /\
  peak_search [[spectrum_a; spectrum_b]] 4 (1, 4)%Z
  = Ok ([[0; 1]]%Z, [[mkC 4 0; mkC 0 20]]) /\
  ~ magnitude_peak spectrum_a 1 4 0 (mkC 4 0) /\
  ~ magnitude_peak spectrum_a 1 4 (1 + 0) (mkC 4 0) /\
  magnitude_peak spectrum_a 1 4 2 (mkC 0 20) /\
  magnitude_peak spectrum_b 1 4 2 (mkC 0 20) /\
  waveform_calibration dft (le16s (chirp_a ++ chirp_b)) (cfg4 1 2 1) 2 =
  Ok ([[Fin 0; Fin (176855943800711 # 2814749767106560000000)]],
      [[(Fin 1, Fin 0); (Fin 0, Fin (-1 # 5))]]) /\
  frequency_calibration [[2; 2]]%Z 2 (fsample (cfg4 1 2 1))
    (fslope (cfg4 1 2 1)) = Ok [[Fin 0; Fin 0]] /\
  phase_calibration [[mkC 0 20; mkC 0 20]]
  = Ok [[(Fin 1, Fin 0); (Fin 1, Fin 0)]].
Proof.
  assert (M : forall row, row = spectrum_a \/ row = spectrum_b ->
                magnitude_peak row 1 4 2 (mkC 0 20)).
  { intros row Hrow. split; [lia|]. split.
    - destruct Hrow as [-> | ->]; reflexivity.
    - intros k x Hk Hx.
      assert (Hc : k = 1%Z \/ k = 2%Z \/ k = 3%Z) by lia.
      destruct Hrow as [-> | ->]; destruct Hc as [-> | [-> | ->]];
        cbn in Hx; injection Hx as <-; vm_compute; discriminate. }
  split; [vm_compute; reflexivity|].
  split; [vm_compute; reflexivity|].
  split; [vm_compute; reflexivity|].
  split; [intros [H _]; lia|].
  split.
  { intros [_ [_ H]].
    specialize (H 2%Z (mkC 0 20) ltac:(lia) eq_refl).
    vm_compute in H. apply H. reflexivity. }
  split; [apply M; now left|].
  split; [apply M; now right|].
  repeat split; vm_compute; reflexivity.
Qed.

(* ================================================================== *)
(** * WaveformCalibrator *)
(* ================================================================== *)

Lemma peak_search_shape rfft ns bins peaks_idx peaks :
  peak_search rfft ns bins = Ok (peaks_idx, peaks) ->
  (slice_len (Z.of_nat ns) (fst bins) (snd bins) <> 0)%nat /\
  peaks_idx = map (map (fun row => argmax (slice row (fst bins) (snd bins))))
                  rfft /\
  peaks = map (map (fun row => amax (slice row (fst bins) (snd bins)))) rfft.
Proof.
  destruct bins as [lo hi]. unfold peak_search. cbn [fst snd].
  destruct (Nat.eqb_spec (slice_len (Z.of_nat ns) lo hi) 0);
    [intros H; discriminate H|].
  intros H. injection H as <- <-. auto.
Qed.

(** Both tables have an entry exactly where the range profile has an
    antenna pair. *)
Lemma peak_tables_aligned rfft ns bins peaks_idx peaks tx rx p :
  peak_search rfft ns bins = Ok (peaks_idx, peaks) ->
  item2 peaks tx rx = Ok p ->
  exists i, item2 peaks_idx tx rx = Ok i.
Proof.
  intros H Hp. destruct (peak_search_shape _ _ _ _ _ H) as [_ [-> ->]].
  rewrite item2_map2 in Hp. rewrite item2_map2.
  destruct (item2 rfft tx rx); [eauto | discriminate Hp].
Qed.

Lemma true_divide_zero_not_finite a : isfinite (true_divide a 0) = false.
Proof.
  unfold true_divide. cbn [Qeq_bool]. now destruct (a ?= 0).
Qed.

Lemma true_divide_fin a b :
  ~ b == 0 -> true_divide a b = Fin (Qred (a / b)).
Proof.
  intros H. unfold true_divide.
  destruct (Qeq_bool b 0) eqn:E; [|reflexivity].
  apply Qeq_bool_eq in E. contradiction.
Qed.

Lemma abs2_nonzero p : is_zero p = false -> ~ abs2 p == 0.
Proof.
  unfold is_zero, abs2. intros Hz H.
  assert (Hr : re p == 0) by nra.
  assert (Hi : im p == 0) by nra.
  apply Qeq_bool_iff in Hr, Hi. rewrite Hr, Hi in Hz. discriminate.
Qed.

(** A non-zero complex number divided by itself. *)
Lemma cdivide_self p : is_zero p = false -> cdivide p p = (Fin 1, Fin 0).
Proof.
  intros Hz. pose proof (abs2_nonzero p Hz) as Hn.
  unfold cdivide. rewrite Hz, !true_divide_fin by exact Hn.
  f_equal; f_equal.
  - apply (Qred_complete _ 1). unfold abs2 in *. field. exact Hn.
  - apply (Qred_complete _ 0). unfold abs2 in *. field. exact Hn.
Qed.

Lemma cdivide_by_zero a p :
  is_zero p = true ->
  cdivide a p = (true_divide (re a) 0, true_divide (im a) 0).
Proof. intros Hz. unfold cdivide. now rewrite Hz. Qed.

Lemma freq_entry_fin d ref ratio :
  ~ ref == 0 ->
  exists q, freq_entry d ref ratio = Fin q /\
            q == 2 * pi * (inject_Z d / ref) * ratio.
Proof.
  intros Hr. unfold freq_entry. rewrite true_divide_fin by exact Hr.
  cbn [multiply]. eexists; split; [reflexivity|].
  rewrite !Qred_correct. ring.
Qed.

Lemma freq_entry_zero ref ratio : ~ ref == 0 -> freq_entry 0 ref ratio = Fin 0.
Proof.
  intros Hr. unfold freq_entry. rewrite true_divide_fin by exact Hr.
  cbn [multiply]. reflexivity.
Qed.

(** What a run that passed the peak search returns. *)
Lemma calibrate_profile_after_search
  rfft ns bins ref f_sample f_slope peaks_idx peaks p00 i00 :
  peak_search rfft ns bins = Ok (peaks_idx, peaks) ->
  item2 peaks 0 0 = Ok p00 ->
  item2 peaks_idx 0 0 = Ok i00 ->
  ~ f_slope == 0 ->
  calibrate_profile rfft ns bins ref f_sample f_slope =
  Ok (map (map (fun i => freq_entry (i - i00) ref (Qred (f_sample / f_slope))))
          peaks_idx,
      map (map (fun p => cdivide p00 p)) peaks).
Proof.
  intros Hs Hp Hi Hn.
  unfold calibrate_profile, phase_calibration, frequency_calibration.
  rewrite Hs. cbn [bind fst snd]. rewrite Hp, Hi. cbn [bind].
  rewrite ratio_of_ok by exact Hn. cbn [bind].
  now rewrite map_map, (map_ext _ _ (fun row => map_map _ _ row)).
Qed.

Lemma calibrate_profile_inv rfft ns bins ref f_sample f_slope freq phase :
  calibrate_profile rfft ns bins ref f_sample f_slope = Ok (freq, phase) ->
  exists peaks_idx peaks p00 i00,
    peak_search rfft ns bins = Ok (peaks_idx, peaks) /\
    item2 peaks 0 0 = Ok p00 /\
    item2 peaks_idx 0 0 = Ok i00 /\
    ~ f_slope == 0 /\
    freq = map (map (fun i =>
                  freq_entry (i - i00) ref (Qred (f_sample / f_slope))))
               peaks_idx /\
    phase = map (map (fun p => cdivide p00 p)) peaks.
Proof.
  intros H.
  destruct (peak_search rfft ns bins) as [[peaks_idx peaks]|e] eqn:Es;
    [|unfold calibrate_profile in H; rewrite Es in H; discriminate H].
  destruct (item2 peaks 0 0) as [p00|e] eqn:Ep;
    [|unfold calibrate_profile, phase_calibration in H;
      rewrite Es in H; cbn [bind fst snd] in H; rewrite Ep in H;
      discriminate H].
  destruct (item2 peaks_idx 0 0) as [i00|e] eqn:Ei;
    [|unfold calibrate_profile, phase_calibration, frequency_calibration in H;
      rewrite Es in H; cbn [bind fst snd] in H; rewrite Ep, Ei in H;
      discriminate H].
  destruct (Qeq_bool f_slope 0) eqn:En.
  - exfalso.
    unfold calibrate_profile, phase_calibration, frequency_calibration in H.
    rewrite Es in H; cbn [bind fst snd] in H; rewrite Ep, Ei in H.
    cbn [bind] in H. rewrite ratio_of_raise in H by now apply Qeq_bool_eq.
    discriminate H.
  - apply Qeq_bool_neq in En.
    rewrite (calibrate_profile_after_search rfft ns bins ref f_sample f_slope
               peaks_idx peaks p00 i00 Es Ep Ei En) in H.
    injection H as <- <-.
    exists peaks_idx, peaks, p00, i00. repeat split; auto.
Qed.

Lemma frequency_calibration_shift k peaks_idx ref f_sample f_slope :
  frequency_calibration (map (map (Z.add k)) peaks_idx) ref f_sample f_slope =
  frequency_calibration peaks_idx ref f_sample f_slope.
Proof.
  unfold frequency_calibration. rewrite item2_map2.
  destruct (item2 peaks_idx 0 0) as [i00|e]; [|reflexivity]. cbn [bind].
  destruct (ratio_of f_sample f_slope) as [ratio|e]; [|reflexivity].
  cbn [bind]. do 2 f_equal. rewrite map_map.
  apply map_ext; intros row. rewrite !map_map.
  apply map_ext; intros i.
  now replace (k + i - (k + i00))%Z with (i - i00)%Z by lia.
Qed.

(** C2, as amended.  A selected peak that is exactly zero is not an error:
    provided the array has a reference antenna and the slope is not zero,
    the run returns, and the phase/amplitude entry of that pair is the
    reference peak divided by zero component by component, an infinity or a
    NaN in each component. *)
Theorem zero_peak_is_divided_through
  (rfft : list (list (list complex))) (ns : nat) (bins : Z * Z)
  (ref f_sample f_slope : Q)
  (peaks_idx : list (list Z)) (peaks : list (list complex))
  (p00 p : complex) (tx rx : nat) :
  peak_search rfft ns bins = Ok (peaks_idx, peaks) ->
  item2 peaks 0 0 = Ok p00 ->
  item2 peaks tx rx = Ok p ->
  is_zero p = true ->
  ~ f_slope == 0 ->
  exists freq phase a b,
    calibrate_profile rfft ns bins ref f_sample f_slope = Ok (freq, phase) /\
    item2 phase tx rx = Ok (a, b) /\
    a = true_divide (re p00) 0 /\ b = true_divide (im p00) 0 /\
    isfinite a = false /\ isfinite b = false.
Proof.
  intros Hs Hp0 Hp Hz Hn.
  destruct (peak_tables_aligned _ _ _ _ _ _ _ _ Hs Hp0) as [i00 Hi].
  rewrite (calibrate_profile_after_search rfft ns bins ref f_sample f_slope
             peaks_idx peaks p00 i00 Hs Hp0 Hi Hn).
  do 4 eexists. split; [reflexivity|].
  rewrite item2_map2, Hp, (cdivide_by_zero p00 p Hz).
  repeat split; apply true_divide_zero_not_finite.
Qed.

(** A silent second antenna pair next to a reference peak of 4. *)
Lemma zero_peak_is_divided_through_witness :
  exists freq phase a b,
    calibrate_profile [[spectrum_a; [c0; c0; c0; c0]]] 4 (1, 4)%Z 2 1 1
    = Ok (freq, phase) /\
    item2 phase 0 1 = Ok (a, b) /\
    a = true_divide 4 0 /\ b = true_divide 0 0 /\
    isfinite a = false /\ isfinite b = false.
Proof.
  apply (zero_peak_is_divided_through
           [[spectrum_a; [c0; c0; c0; c0]]] 4 (1, 4)%Z 2 1 1
           [[0; 0]]%Z [[mkC 4 0; c0]] (mkC 4 0) c0 0 1);
    [vm_compute; reflexivity | reflexivity | reflexivity | reflexivity
    | discriminate].
Defined.

(** C2, as stated, fails.  A frame whose second antenna pair is silent has
    the selected peaks 4 and 0; the program returns, and the entry of the
    silent pair is (inf, nan). *)
Lemma zero_peak_returns_inf_nan :
  (frame <- load_frame (le16s (chirp_a ++ chirp_0)) 1 2 1 4 ;;
   peak_search (range_profile dft 4 frame) 4 (1, 4)%Z)
  = Ok ([[0; 0]]%Z, [[mkC 4 0; c0]]) /\
  waveform_calibration dft (le16s (chirp_a ++ chirp_0)) (cfg4 1 2 1) 2 =
  Ok ([[Fin 0; Fin 0]], [[(Fin 1, Fin 0); (PInf, NaN)]]).
Proof. split; vm_compute; reflexivity. Qed.

(** C7, as amended.  On a run that returns: when the selected peak of the
    reference antenna is not zero its phase/amplitude entry is exactly
    (1, 0); when the reference distance is not zero its frequency entry is
    exactly 0. *)
Theorem reference_entries
  (rfft : list (list (list complex))) (ns : nat) (bins : Z * Z)
  (ref f_sample f_slope : Q)
  (freq : list (list float64)) (phase : list (list (float64 * float64)))
  (peaks_idx : list (list Z)) (peaks : list (list complex)) (p00 : complex) :
  calibrate_profile rfft ns bins ref f_sample f_slope = Ok (freq, phase) ->
  peak_search rfft ns bins = Ok (peaks_idx, peaks) ->
  item2 peaks 0 0 = Ok p00 ->
  (is_zero p00 = false -> item2 phase 0 0 = Ok (Fin 1, Fin 0)) /\
  (~ ref == 0 -> item2 freq 0 0 = Ok (Fin 0)).
Proof.
  intros H Hs Hp.
  destruct (calibrate_profile_inv _ _ _ _ _ _ _ _ H)
    as [pi' [pk' [p00' [i00 [Hs' [Hp' [Hi [_ [-> ->]]]]]]]]].
  rewrite Hs in Hs'. injection Hs' as <- <-.
  rewrite Hp in Hp'. injection Hp' as <-.
  split.
  - intros Hz. rewrite item2_map2, Hp. now rewrite cdivide_self.
  - intros Hr. rewrite item2_map2, Hi, Z.sub_diag.
    now rewrite freq_entry_zero.
Qed.

(** A single antenna pair with the peak 4. *)
Lemma reference_entries_witness :
  exists freq phase,
    calibrate_profile [[spectrum_a]] 4 (1, 3)%Z 2 1 1 = Ok (freq, phase) /\
    item2 phase 0 0 = Ok (Fin 1, Fin 0) /\
    item2 freq 0 0 = Ok (Fin 0).
Proof.
  exists [[Fin 0]], [[(Fin 1, Fin 0)]].
  destruct (reference_entries [[spectrum_a]] 4 (1, 3)%Z 2 1 1
              [[Fin 0]] [[(Fin 1, Fin 0)]] [[0%Z]] [[mkC 4 0]] (mkC 4 0))
    as [P F]; [vm_compute; reflexivity | reflexivity | reflexivity |].
  split; [vm_compute; reflexivity|].
  split; [apply P; reflexivity | apply F; discriminate].
Defined.

(** C7, as stated, fails.  On a silent frame the run returns and the
    reference antenna's own phase/amplitude entry is (nan, nan), the zero
    peak divided by itself. *)
Lemma silent_frame_reference_entry_is_nan :
  waveform_calibration dft (le16s chirp_0) (cfg4 1 1 1) 2 =
  Ok ([[Fin 0]], [[(NaN, NaN)]]).
Proof. vm_compute. reflexivity. Qed.

(** With a reference distance of zero the frequency entry of the reference
    antenna is 0 / 0. *)
Example zero_reference_distance :
  calibrate_profile [[spectrum_a]] 4 (1, 3)%Z 0 1 1 =
  Ok ([[NaN]], [[(Fin 1, Fin 0)]]).
Proof. vm_compute. reflexivity. Qed.



(** C10.  The frequency calibration does not depend on where indices are
    counted from.  The program's indices count from the start of the slice;
    adding that start gives the absolute bins, those at which the range
    profile holds the selected peaks.  The differences to the reference
    antenna are the same for both, the frequency calibration computed from
    the absolute bins, or from the indices shifted by any constant, is the
    one computed from the program's indices, and it is the matrix the run
    returns. *)
Theorem frequency_calibration_window_relative
  (rfft : list (list (list complex))) (ns : nat) (lo hi : Z)
  (ref f_sample f_slope : Q)
  (peaks_idx : list (list Z)) (peaks : list (list complex)) :
  peak_search rfft ns (lo, hi) = Ok (peaks_idx, peaks) ->
  let start := Z.of_nat (slice_start (Z.of_nat ns) lo) in
  let absolute := map (map (Z.add start)) peaks_idx in
  (forall tx rx row, item2 rfft tx rx = Ok row -> length row = ns ->
     exists a peak,
       item2 absolute tx rx = Ok a /\ item2 peaks tx rx = Ok peak /\
       (0 <= a)%Z /\ nth_error row (Z.to_nat a) = Some peak) /\
  (forall tx rx i i0,
     item2 peaks_idx tx rx = Ok i -> item2 peaks_idx 0 0 = Ok i0 ->
     exists a a0,
       item2 absolute tx rx = Ok a /\ item2 absolute 0 0 = Ok a0 /\
       (a - a0 = i - i0)%Z) /\
  (forall k,
     frequency_calibration (map (map (Z.add k)) peaks_idx) ref f_sample f_slope
     = frequency_calibration peaks_idx ref f_sample f_slope) /\
  (forall freq phase,
     calibrate_profile rfft ns (lo, hi) ref f_sample f_slope
     = Ok (freq, phase) ->
     frequency_calibration absolute ref f_sample f_slope = Ok freq).
Proof.
  intros Hs start absolute. repeat split.
  - intros tx rx row Hrow Hns.
    destruct (peak_search_shape _ _ _ _ _ Hs) as [Hlen _].
    destruct (peak_search_spec rfft ns lo hi Hlen) as [pi' [pk' [Hs' Hall]]].
    rewrite Hs in Hs'. injection Hs' as <- <-.
    destruct (Hall tx rx row Hrow Hns) as [r [peak [Ei [Ep [_ [Hv _]]]]]].
    exists (start + Z.of_nat r)%Z, peak.
    unfold absolute. rewrite item2_map2, Ei.
    repeat split; [exact Ep | unfold start; lia |].
    unfold start. rewrite <- Nat2Z.inj_add, Nat2Z.id. exact Hv.
  - intros tx rx i i0 Hi Hi0. exists (start + i)%Z, (start + i0)%Z.
    unfold absolute. rewrite !item2_map2, Hi, Hi0.
    repeat split. lia.
  - intros k. apply frequency_calibration_shift.
  - intros freq phase H. unfold absolute.
    rewrite frequency_calibration_shift.
    destruct (calibrate_profile_inv _ _ _ _ _ _ _ _ H)
      as [pi' [pk' [p00 [i00 [Hs' [_ [Hi0 [Hn [-> _]]]]]]]]].
    rewrite Hs in Hs'. injection Hs' as <- <-.
    unfold frequency_calibration. rewrite Hi0. cbn [bind].
    rewrite ratio_of_ok by exact Hn. cbn [bind].
    now rewrite map_map, (map_ext _ _ (fun row => map_map _ _ row)).
Qed.

(** The same two antenna pairs: the absolute bins 1 and 2 give the matrix
    the run returns from the indices 0 and 1. *)
Lemma frequency_calibration_window_relative_witness :
  frequency_calibration [[1; 2]]%Z 2 (fsample (cfg4 1 2 1))
    (fslope (cfg4 1 2 1))
  = Ok [[Fin 0; Fin (176855943800711 # 2814749767106560000000)]].
Proof.
  destruct (frequency_calibration_window_relative
              [[spectrum_a; [c0; c0; mkC 0 20; c0]]] 4 1 4 2
              (fsample (cfg4 1 2 1)) (fslope (cfg4 1 2 1))
              [[0; 1]]%Z [[mkC 4 0; mkC 0 20]])
    as [_ [_ [_ H]]]; [vm_compute; reflexivity|].
  apply (H _ [[(Fin 1, Fin 0); (Fin 0, Fin (-1 # 5))]]).
  vm_compute; reflexivity.
Defined.

(* ================================================================== *)
(** * The whole run and the window *)
(* ================================================================== *)

Lemma slice_len_empty n lo : slice_len n lo lo = 0%nat.
Proof. unfold slice_len. now rewrite Z.sub_diag. Qed.

(** A frame of at least one transmitter and one receiver has a reference
    antenna. *)
Lemma reshape5_reference a ntx nrx nc ns :
  (0 < ntx)%nat -> (0 < nrx)%nat ->
  length a = (ntx * nrx * nc * ns * 2)%nat ->
  exists frame block,
    reshape5 a ntx nrx nc ns = Ok frame /\ item2 frame 0 0 = Ok block.
Proof.
  intros Htx Hrx Hlen. unfold reshape5. rewrite Hlen, Nat.eqb_refl.
  do 2 eexists. split; [reflexivity|]. unfold item2.
  rewrite (split_rows_seq ntx), map_map, nth_error_map_seq by exact Htx.
  rewrite (split_rows_seq nrx), map_map, nth_error_map_seq by exact Hrx.
  reflexivity.
Qed.

(** The rows of the range profile have the length of the sample axis,
    whatever transform of that length is used. *)
Section RangeProfileShape.

Variable fft : nat -> list complex -> list complex.
Hypothesis fft_length : forall n x, length (fft n x) = n.

Lemma sum0_length ns block :
  Forall (fun row => length row = ns) block -> length (sum0 ns block) = ns.
Proof.
  induction 1 as [|row block Hrow _ IH]; cbn.
  - apply repeat_length.
  - fold (sum0 ns block). rewrite length_map, length_combine, Hrow, IH.
    apply Nat.min_id.
Qed.

Lemma range_profile_row ns frame tx rx row :
  item2 (range_profile fft ns frame) tx rx = Ok row -> length row = ns.
Proof.
  unfold range_profile. rewrite item2_map2.
  destruct (item2 (iq frame) tx rx) as [block|e]; [|discriminate].
  intros H. injection H as <-. apply sum0_length.
  apply Forall_map, Forall_forall. intros x _. apply fft_length.
Qed.

End RangeProfileShape.

Lemma dft_length n x : length (dft n x) = n.
Proof. unfold dft. now rewrite length_map, length_seq. Qed.

(** An error of the window computation is the error of the run: the window
    is computed before the file is read. *)
Lemma waveform_calibration_window_raise fft file cfg ref e :
  window_of cfg ref = Raise e ->
  waveform_calibration fft file cfg ref = Raise e.
Proof.
  unfold window_of, waveform_calibration.
  destruct (rres cfg) as [res|]; cbn [bind].
  - intros H. rewrite H. reflexivity.
  - intros H. now injection H as ->.
Qed.

(** Once the window is computed, on a file holding one frame of an array
    with a reference antenna, the outcome of the run is decided by the slice
    that Python takes for the two bounds: empty, [argmax] raises
    [ValueError]; otherwise the run returns. *)
Lemma waveform_calibration_outcome fft file cfg ref lo hi :
  well_formed cfg file ->
  window_of cfg ref = Ok (lo, hi) ->
  let len := slice_len (Z.of_nat (numAdcSamples cfg)) lo hi in
  (len = 0%nat -> waveform_calibration fft file cfg ref = Raise ValueError) /\
  (len <> 0%nat ->
   exists freq phase, waveform_calibration fft file cfg ref = Ok (freq, phase)).
Proof.
  intros [Htx [Hrx Hlen]] Hw len.
  pose proof (window_of_slope _ _ _ Hw) as Hs.
  destruct (window_of_inv _ _ _ _ Hw) as [res [E Hb]].
  destruct (reshape5_reference (fromfile_int16 file) _ _ (numChirpLoops cfg)
              (numAdcSamples cfg) Htx Hrx) as [frame [block [Ef Eb]]];
    [now rewrite fromfile_int16_length|].
  unfold waveform_calibration, load_frame.
  rewrite E. cbn [bind]. rewrite Hb. cbn [bind]. rewrite Ef. cbn [bind].
  set (rfft := range_profile fft (numAdcSamples cfg) frame).
  assert (Hsearch : peak_search rfft (numAdcSamples cfg) (lo, hi) =
                    if (len =? 0)%nat then Raise ValueError
                    else Ok (map (map (fun row => argmax (slice row lo hi)))
                                 rfft,
                             map (map (fun row => amax (slice row lo hi)))
                                 rfft)).
  { reflexivity. }
  split; intros Hl.
  - unfold calibrate_profile. rewrite Hsearch, Hl. reflexivity.
  - destruct (Nat.eqb_spec len 0) as [|_]; [contradiction|].
    assert (Hr : exists row, item2 rfft 0 0 = Ok row).
    { unfold rfft, range_profile, iq. rewrite !item2_map2, Eb. eauto. }
    destruct Hr as [row Hr].
    assert (Ps : ~ fslope cfg == 0).
    { rewrite fslope_eq. intros Hz. apply Hs.
      assert (N : ~ inject_Z (10 ^ 12) == 0) by discriminate.
      destruct (Qmult_integral _ _ Hz) as [H0|H0];
        [exact H0 | contradiction]. }
    rewrite (calibrate_profile_after_search rfft _ (lo, hi) ref _ _ _ _
               (amax (slice row lo hi))
               (argmax (slice row lo hi)) Hsearch);
      [eauto | | | exact Ps]; now rewrite item2_map2, Hr.
Qed.

(** C3, as amended.  The window computation checks no bound.  It fails only
    with the errors of its float operations, and such an error is the error
    of the run.  When it returns two bounds, whatever they are, on a file
    holding one frame of an array with a reference antenna the run fails
    exactly when the slice Python takes for these bounds is empty, and then
    with the [ValueError] of [argmax]; this is the case of every window with
    [hi = lo].  A window that is out of bounds with a non-empty slice is
    processed. *)
Theorem window_is_not_checked
  (fft : nat -> list complex -> list complex)
  (file : list byte) (cfg : config) (ref : Q) :
  well_formed cfg file ->
  (forall e, window_of cfg ref = Raise e ->
     waveform_calibration fft file cfg ref = Raise e /\
     (e = ZeroDivisionError \/ e = OverflowError \/ e = ValueError)) /\
  (forall lo hi, window_of cfg ref = Ok (lo, hi) ->
     let len := slice_len (Z.of_nat (numAdcSamples cfg)) lo hi in
     (succeeds (waveform_calibration fft file cfg ref) = false
      <-> len = 0%nat) /\
     (len = 0%nat ->
      waveform_calibration fft file cfg ref = Raise ValueError) /\
     (hi = lo -> len = 0%nat)).
Proof.
  intros Hwf. split.
  - intros e He. split.
    + now apply waveform_calibration_window_raise.
    + exact (window_of_raises _ _ _ He).
  - intros lo hi Hw len.
    destruct (waveform_calibration_outcome fft file cfg ref lo hi Hwf Hw)
      as [Hf Hok].
    fold len in Hf, Hok.
    split; [|split; [exact Hf|]].
    + split.
      * intros Hfail. destruct (Nat.eq_dec len 0) as [|Hne]; [assumption|].
        destruct (Hok Hne) as [freq [phase E]]. rewrite E in Hfail.
        discriminate Hfail.
      * intros Hl. now rewrite (Hf Hl).
    + intros ->. apply slice_len_empty.
Qed.

(** At 3 m the window [2, 5) leaves the axis of 4 samples. *)
Lemma window_is_not_checked_witness :
  succeeds (waveform_calibration dft (le16s chirp_a) (cfg4 1 1 1) 3) = false
  <-> slice_len 4 2 5 = 0%nat.
Proof.
  destruct (window_is_not_checked dft (le16s chirp_a) (cfg4 1 1 1) 3)
    as [_ H].
  - repeat split; try reflexivity; simpl; lia.
  - destruct (H 2%Z 5%Z) as [E _]; [vm_compute; reflexivity|].
    exact E.
Defined.

(** C3, as stated, fails.  At a reference distance of 3 m, past the maximum
    range of about 2.998 m, the window is [2, 5) on an axis of 4 samples;
    the run goes on with the bins 2 and 3 and returns. *)
Lemma out_of_bounds_window_is_processed :
  window_of (cfg4 1 1 1) 3 = Ok (2, 5)%Z /\
  ~ window_in_bounds 4 (2, 5)%Z /\
  waveform_calibration dft (le16s chirp_a) (cfg4 1 1 1) 3 =
  Ok ([[Fin 0]], [[(Fin 1, Fin 0)]]) /\
  ~ rejects_bad_window dft (le16s chirp_a) (cfg4 1 1 1) 3.
Proof.
  assert (E : window_of (cfg4 1 1 1) 3 = Ok (2, 5)%Z)
    by (vm_compute; reflexivity).
  assert (B : ~ window_in_bounds 4 (2, 5)%Z)
    by (unfold window_in_bounds; simpl; lia).
  assert (R : waveform_calibration dft (le16s chirp_a) (cfg4 1 1 1) 3 =
              Ok ([[Fin 0]], [[(Fin 1, Fin 0)]]))
    by (vm_compute; reflexivity).
  repeat split; try assumption.
  intros H. specialize (H (2, 5)%Z E B). rewrite R in H. discriminate H.
Qed.

(** An empty slice is met inside the range as well.  At ref = 3.99792458
    the binary64 quotient [(ref - 1) / resolution] is exactly 4, the window
    is [4, 6) on an axis of 4 samples, and [argmax] raises. *)
Example window_past_the_axis :
  window_of (cfg4 1 1 1) (399792458 # 100000000) = Ok (4, 6)%Z /\
  slice_len 4 4 6 = 0%nat /\
  waveform_calibration dft (le16s chirp_a) (cfg4 1 1 1)
    (399792458 # 100000000) = Raise ValueError.
Proof. repeat split; vm_compute; reflexivity. Qed.

(** C9, as amended.  Let the low quotient [(ref - 1) / resolution], a
    binary64 quotient, be negative.  If it is minus infinity, [int] raises
    [OverflowError] and the run stops there.  Otherwise no error is reported
    for the bound: the low bound is the quotient rounded toward zero, which
    is negative only when the quotient is at most -1, and is 0 for the
    quotients between -1 and 0.  When the window is computed, a negative low
    bound makes the slice start [max (ns + lo) 0], counted from the end of
    the sample axis, and on a file holding one frame of an array with a
    reference antenna the run returns a result exactly when the slice is not
    empty, and otherwise fails with the [ValueError] of [argmax]. *)
Theorem negative_low_bound_wraps
  (fft : nat -> list complex -> list complex)
  (file : list byte) (cfg : config) (ref : Q) (res ql : float) :
  well_formed cfg file ->
  rres cfg = Ok res ->
  truediv (to_float ref - 1) res = Ok ql ->
  negative ql ->
  let ns := Z.of_nat (numAdcSamples cfg) in
  (is_finite ql = false ->
   waveform_calibration fft file cfg ref = Raise OverflowError) /\
  (is_finite ql = true ->
   int ql = Ok (Qceiling (as_integer_ratio ql)) /\
   (Qceiling (as_integer_ratio ql) <= 0)%Z /\
   ((Qceiling (as_integer_ratio ql) < 0)%Z <-> as_integer_ratio ql <= -1)) /\
  (forall lo hi, window_of cfg ref = Ok (lo, hi) ->
     lo = Qceiling (as_integer_ratio ql) /\
     ((lo < 0)%Z -> slice_start ns lo = Z.to_nat (Z.max (ns + lo) 0)) /\
     (succeeds (waveform_calibration fft file cfg ref) = true
      <-> slice_len ns lo hi <> 0%nat) /\
     (slice_len ns lo hi = 0%nat ->
      waveform_calibration fft file cfg ref = Raise ValueError)).
Proof.
  intros Hwf Er Hq Hneg ns.
  assert (Hfin : is_finite ql = true ->
                 int ql = Ok (Qceiling (as_integer_ratio ql))).
  { intros Hf. destruct (proj1 (int_finite ql) Hf) as [z Hz].
    rewrite Hz. f_equal. rewrite (int_truncates _ _ Hz).
    apply Qtruncate_negative. now apply negative_ratio. }
  split; [|split].
  - intros Hinf. unfold waveform_calibration, ref_bins.
    rewrite Er. cbn [bind]. rewrite Hq. cbn [bind].
    now rewrite (int_of_infinity _ Hinf Hneg).
  - intros Hf. split; [now apply Hfin|].
    pose proof (negative_ratio _ Hf Hneg) as Hlt. split.
    + assert (H0 : (Qceiling (as_integer_ratio ql) <= Qceiling 0)%Z)
        by (apply Qceiling_resp_le; lra).
      exact H0.
    + apply Qceiling_negative.
  - intros lo hi Hw.
    destruct (waveform_calibration_outcome fft file cfg ref lo hi Hwf Hw)
      as [Hf Hok].
    fold ns in Hf, Hok.
    destruct (window_of_inv _ _ _ _ Hw) as [res' [Er' Eb]].
    rewrite Er in Er'. injection Er' as <-.
    destruct (ref_bins_inv _ _ _ _ Eb) as [_ [Il _]].
    destruct (truediv_inv _ _ _ Hq) as [_ Eq]. rewrite <- Eq in Il.
    assert (Hfq : is_finite ql = true) by (apply int_finite; eauto).
    rewrite (Hfin Hfq) in Il. injection Il as Il.
    split; [now rewrite Il|]. split; [|split; [|exact Hf]].
    + intros Hlt. unfold slice_start, clip.
      destruct (Z.ltb_spec lo 0); [|lia].
      f_equal. lia.
    + split.
      * intros Hsucc Hl. rewrite (Hf Hl) in Hsucc. discriminate Hsucc.
      * intros Hne. destruct (Hok Hne) as [freq [phase E]]. now rewrite E.
Qed.

(** A short maximum range: the window [-2, 4) is the bins 2 and 3. *)
Lemma negative_low_bound_wraps_witness :
  window_of cfg_short (3 # 10) = Ok (-2, 4)%Z /\
  slice_start 4 (-2) = 2%nat /\
  succeeds (waveform_calibration dft (le16s chirp_a) cfg_short (3 # 10))
  = true.
Proof.
  assert (E : window_of cfg_short (3 # 10) = Ok (-2, 4)%Z)
    by (vm_compute; reflexivity).
  edestruct (negative_low_bound_wraps dft (le16s chirp_a) cfg_short (3 # 10))
    as [_ [_ H]].
  - repeat split; try reflexivity; simpl; lia.
  - vm_compute. reflexivity.
  - vm_compute. reflexivity.
  - vm_compute. reflexivity.
  - destruct (H _ _ E) as [_ [S [R _]]].
    split; [exact E|]. split.
    + apply S. reflexivity.
    + apply R. vm_compute. discriminate.
Defined.

(** C9, as stated, fails.  At a reference distance of 0.2 m the low
    quotient is about -1.07 and the window is [-1, 1); on the axis of 4
    samples the slice starts at 3 and stops at 1, it is empty, and the run
    fails with [ValueError].  At 0.5 m the low quotient is negative and the
    low bound is 0, not a negative index. *)
Lemma negative_low_bound_can_fail :
  ((1 # 5) - 1) / cfg_resolution (cfg4 1 1 1) < 0 /\
  (exists res ql,
     rres (cfg4 1 1 1) = Ok res /\
     truediv (to_float (1 # 5) - 1) res = Ok ql /\ negative ql) /\
  window_of (cfg4 1 1 1) (1 # 5) = Ok (-1, 1)%Z /\
  waveform_calibration dft (le16s chirp_a) (cfg4 1 1 1) (1 # 5) =
  Raise ValueError /\
  ~ negative_low_bound_returns dft (le16s chirp_a) (cfg4 1 1 1) (1 # 5) /\
  window_of (cfg4 1 1 1) (1 # 2) = Ok (0, 2)%Z.
Proof.
  assert (R : waveform_calibration dft (le16s chirp_a) (cfg4 1 1 1) (1 # 5) =
              Raise ValueError) by (vm_compute; reflexivity).
  assert (N : ((1 # 5) - 1) / cfg_resolution (cfg4 1 1 1) < 0)
    by (vm_compute; reflexivity).
  split; [exact N|]. split.
  { do 2 eexists. repeat split; vm_compute; reflexivity. }
  split; [vm_compute; reflexivity|].
  split; [exact R|]. split; [|vm_compute; reflexivity].
  intros H. unfold negative_low_bound_returns in H. rewrite R in H.
  specialize (H N). discriminate H.
Qed.

(** The slice taken from the end of the axis: with a maximum range of about
    1.2 m and a reference distance of 0.3 m the window is [-2, 4), and the
    peak is searched in the bins 2 and 3. *)
Example window_from_the_end :
  window_of cfg_short (3 # 10) = Ok (-2, 4)%Z /\
  slice spectrum_a (-2) 4 = [mkC 0 20; c0] /\
  waveform_calibration dft (le16s chirp_a) cfg_short (3 # 10) =
  Ok ([[Fin 0]], [[(Fin 1, Fin 0)]]).
Proof. repeat split; vm_compute; reflexivity. Qed.

(** The rounding of the float division decides the low bound.  At
    ref = 0.25051885500000004 the real quotient is just above -1, and the
    binary64 quotient is -1: the window is [-1, 1) and not [0, 1), its slice
    is empty and the run fails. *)
Example rounding_makes_the_low_bound_negative :
  window_of (cfg4 1 1 1) (25051885500000004 # 100000000000000000)
  = Ok (-1, 1)%Z /\
  truncate_window (cfg_resolution (cfg4 1 1 1))
    (25051885500000004 # 100000000000000000) = (0, 1)%Z /\
  waveform_calibration dft (le16s chirp_a) (cfg4 1 1 1)
    (25051885500000004 # 100000000000000000) = Raise ValueError.
Proof. repeat split; vm_compute; reflexivity. Qed.

(** A low quotient of minus infinity. *)
Example low_quotient_of_minus_infinity :
  waveform_calibration dft (le16s chirp_a) (cfg4 1 1 1)
    (inject_Z (- 3 * 2 ^ 1022)) = Raise OverflowError.
Proof. vm_compute. reflexivity. Qed.

(* ================================================================== *)
(** * More on the frame and the coupling matrix *)
(* ================================================================== *)

Lemma int16_le_range b0 b1 : in_int16 (int16_le b0 b1).
Proof.
  unfold in_int16, int16_le.
  pose proof (Byte.to_N_bounded b0) as H0.
  pose proof (Byte.to_N_bounded b1) as H1.
  destruct (Z.ltb_spec
              (Z.of_N (Byte.to_N b0) + 256 * Z.of_N (Byte.to_N b1)) 32768);
    lia.
Qed.

Lemma fromfile_int16_range bs : Forall in_int16 (fromfile_int16 bs).
Proof.
  assert (H : forall n bs, (length bs <= n)%nat ->
                           Forall in_int16 (fromfile_int16 bs)).
  { clear bs. induction n as [|n IH]; intros bs Hn.
    - destruct bs; [constructor | simpl in Hn; lia].
    - destruct bs as [|b0 [|b1 t]]; try constructor.
      + apply int16_le_range.
      + apply IH. simpl in Hn. lia. }
  apply (H (length bs)); lia.
Qed.

Lemma nth_in_int16 l i : Forall in_int16 l -> in_int16 (nth i l 0%Z).
Proof.
  intros H. destruct (Nat.lt_ge_cases i (length l)) as [Hi|Hi].
  - apply Forall_nth; assumption.
  - rewrite nth_overflow by exact Hi. unfold in_int16. lia.
Qed.

Lemma zsum_seq_bounds (f : nat -> Z) (lo hi : Z) n :
  (forall i, (lo <= f i <= hi)%Z) ->
  (Z.of_nat n * lo <= zsum (map f (seq 0 n)) <= Z.of_nat n * hi)%Z.
Proof.
  intros H. induction n as [|n IH].
  - cbn. lia.
  - rewrite seq_S, map_app. cbn [map].
    assert (E : forall l x, zsum (l ++ [x]) = (zsum l + x)%Z).
    { unfold zsum. induction l as [|y l IHl]; intros x;
        cbn [app fold_right]; [lia|].
      rewrite IHl. lia. }
    rewrite E. specialize (H n). cbn [Nat.add]. lia.
Qed.

Lemma raw_sum_bounds bs nrx nc ns tx rx k :
  (Z.of_nat (nc * ns) * -32768
   <= raw_sum (fromfile_int16 bs) nrx nc ns tx rx k
   <= Z.of_nat (nc * ns) * 32767)%Z.
Proof.
  unfold raw_sum.
  pose proof (zsum_seq_bounds
                (fun c => zsum (map (fun s =>
                   raw (fromfile_int16 bs) nrx nc ns tx rx c s k) (seq 0 ns)))
                (Z.of_nat ns * -32768) (Z.of_nat ns * 32767) nc) as H.
  cbv beta in H. rewrite Nat2Z.inj_mul.
  rewrite <- !Z.mul_assoc. apply H. intros c.
  apply zsum_seq_bounds. intros s. unfold raw.
  apply nth_in_int16, fromfile_int16_range.
Qed.

Lemma mean_of_bounds total count :
  (0 < count)%nat ->
  (Z.of_nat count * -32768 <= total <= Z.of_nat count * 32767)%Z ->
  within_int16 (mean_of total count).
Proof.
  intros Hc [Hlo Hhi]. unfold within_int16, mean_of.
  eexists; split; [reflexivity|]. rewrite Qred_correct.
  pose proof (inject_nat_pos count Hc) as P.
  split.
  - apply Qle_shift_div_l; [exact P|].
    rewrite <- (inject_Z_mult (-32768)), <- Zle_Qle. lia.
  - apply Qle_shift_div_r; [exact P|].
    rewrite <- (inject_Z_mult 32767), <- Zle_Qle. lia.
Qed.

(** The entries of the coupling matrix on a well-formed frame, in terms of
    the items of the file. *)
Lemma coupling_entries file ntx nrx nc ns :
  (length file / 2 = ntx * nrx * nc * ns * 2)%nat ->
  exists m,
    coupling_calibration file ntx nrx nc ns = Ok m /\
    shape2 ntx nrx m /\
    forall tx rx, (tx < ntx)%nat -> (rx < nrx)%nat ->
      item2 m tx rx =
      Ok [true_divide
            (inject_Z (raw_sum (fromfile_int16 file) nrx nc ns tx rx 0))
            (inject_Z (Z.of_nat (nc * ns)));
          true_divide
            (inject_Z (raw_sum (fromfile_int16 file) nrx nc ns tx rx 1))
            (inject_Z (Z.of_nat (nc * ns)))].
Proof.
  intros Hlen.
  unfold coupling_calibration, load_frame, reshape5.
  rewrite fromfile_int16_length, Hlen, Nat.eqb_refl. cbn [bind].
  eexists; split; [reflexivity|]. split; [split|].
  - now rewrite !length_map, split_rows_length.
  - rewrite !Forall_map. apply Forall_forall; intros t _.
    now rewrite !length_map, split_rows_length.
  - intros tx rx Htx Hrx. unfold item2.
    rewrite (split_rows_seq ntx), !map_map, nth_error_map_seq by assumption.
    rewrite (split_rows_seq nrx), !map_map, nth_error_map_seq by assumption.
    unfold mean01. cbn [seq map].
    rewrite !block_sum with (ntx := ntx) by lia.
    reflexivity.
Qed.

(** X1.  Every coupling value lies in the range of the samples it averages. *)
Theorem coupling_within_int16 (file : list byte) (ntx nrx nc ns : nat) :
  (0 < nc)%nat -> (0 < ns)%nat ->
  (length file / 2 = ntx * nrx * nc * ns * 2)%nat ->
  exists m,
    coupling_calibration file ntx nrx nc ns = Ok m /\
    forall tx rx, (tx < ntx)%nat -> (rx < nrx)%nat ->
      exists i q,
        item2 m tx rx = Ok [i; q] /\ within_int16 i /\ within_int16 q.
Proof.
  intros Hnc Hns Hlen.
  destruct (coupling_entries file ntx nrx nc ns Hlen) as [m [E [_ H]]].
  exists m. split; [exact E|]. intros tx rx Htx Hrx.
  do 2 eexists. split; [apply H; assumption|].
  rewrite !true_divide_count by lia.
  split; apply mean_of_bounds; try lia; apply raw_sum_bounds.
Qed.

(** The small frame: its two means lie between -32768 and 32767. *)
Lemma coupling_within_int16_witness :
  exists m,
    coupling_calibration (le16s [1; 2; 3; 4; 5; 6; 7; 8]%Z) 1 1 2 2 = Ok m /\
    exists i q,
      item2 m 0 0 = Ok [i; q] /\ within_int16 i /\ within_int16 q.
Proof.
  destruct (coupling_within_int16 (le16s [1; 2; 3; 4; 5; 6; 7; 8]%Z) 1 1 2 2)
    as [m [E H]]; [lia | lia | reflexivity |].
  exists m. split; [exact E|]. apply H; lia.
Defined.

Lemma zsum_zeros {A : Type} (l : list A) : zsum (map (fun _ => 0%Z) l) = 0%Z.
Proof.
  unfold zsum. induction l as [|x l IH]; cbn [map fold_right];
    [reflexivity | now rewrite IH].
Qed.

Lemma raw_sum_empty a nrx nc ns tx rx k :
  (nc * ns = 0)%nat -> raw_sum a nrx nc ns tx rx k = 0%Z.
Proof.
  intros H. unfold raw_sum.
  destruct nc as [|nc]; [reflexivity|].
  assert (ns = 0%nat) as -> by lia.
  cbn [seq map zsum fold_right]. apply (zsum_zeros (seq 0 (S nc))).
Qed.

(** X2.  With no chirp or no sample per chirp the frame is empty, and so is each
    average: every entry of the coupling matrix is (nan, nan). *)
Theorem coupling_of_empty_axes (file : list byte) (ntx nrx nc ns : nat) :
  (nc * ns = 0)%nat ->
  (length file / 2 = 0)%nat ->
  exists m,
    coupling_calibration file ntx nrx nc ns = Ok m /\
    shape2 ntx nrx m /\
    forall tx rx, (tx < ntx)%nat -> (rx < nrx)%nat ->
      item2 m tx rx = Ok [NaN; NaN].
Proof.
  intros Hz Hlen.
  destruct (coupling_entries file ntx nrx nc ns) as [m [E [S H]]].
  { rewrite Hlen. nia. }
  exists m. split; [exact E|]. split; [exact S|].
  intros tx rx Htx Hrx. rewrite (H tx rx Htx Hrx).
  now rewrite !raw_sum_empty, Hz by exact Hz.
Qed.

(** Twelve by sixteen antennas and no chirp. *)
Lemma coupling_of_empty_axes_witness :
  exists m,
    coupling_calibration [] 12 16 0 256 = Ok m /\
    shape2 12 16 m /\ item2 m 11 15 = Ok [NaN; NaN].
Proof.
  destruct (coupling_of_empty_axes [] 12 16 0 256)
    as [m [E [S H]]]; [reflexivity | reflexivity |].
  exists m. split; [exact E|]. split; [exact S|]. apply H; lia.
Defined.

Lemma firstn_plus {A : Type} n m (l : list A) :
  firstn (n + m) l = firstn n l ++ firstn m (skipn n l).
Proof.
  revert l; induction n as [|n IH]; intros l; [reflexivity|].
  destruct l as [|x l]; cbn [Nat.add firstn skipn app].
  - now rewrite firstn_nil.
  - now rewrite IH.
Qed.

(** The rows of a split, put end to end, are the items that were split. *)
Lemma concat_split_rows {A : Type} rows cols (l : list A) :
  concat (split_rows rows cols l) = firstn (rows * cols) l.
Proof.
  revert l; induction rows as [|r IH]; intros l; [reflexivity|].
  cbn [split_rows concat Nat.mul]. now rewrite IH, firstn_plus.
Qed.

Lemma split_rows_row_length {A : Type} rows cols (l : list A) :
  (rows * cols <= length l)%nat ->
  Forall (fun row => length row = cols) (split_rows rows cols l).
Proof.
  revert l; induction rows as [|r IH]; intros l H; [constructor|].
  cbn [split_rows]. constructor.
  - rewrite length_firstn. cbn [Nat.mul] in H. lia.
  - apply IH. rewrite length_skipn. cbn [Nat.mul] in H. lia.
Qed.

Lemma concat_map_id {A B : Type} (f : B -> list A) (g : B -> list A) l :
  Forall (fun x => f x = g x) l -> concat (map f l) = concat (map g l).
Proof.
  induction 1 as [|x l Hx _ IH]; [reflexivity|].
  cbn [map concat]. now rewrite Hx, IH.
Qed.

Lemma concat2_map {A B : Type} (f : B -> list (list A)) (l : list B) :
  concat (concat (map f l)) = concat (map (fun x => concat (f x)) l).
Proof.
  induction l as [|x l IH]; [reflexivity|].
  cbn [concat map]. now rewrite concat_app, IH.
Qed.

(** A block of [rows * cols] items split and put back in order. *)
Lemma ravel_split {A : Type} rows cols (l : list A) :
  length l = (rows * cols)%nat -> concat (split_rows rows cols l) = l.
Proof.
  intros H. rewrite concat_split_rows, <- H. apply firstn_all.
Qed.

(** X3.  Reading the loaded frame in row-major order gives back the items of the
    file, each once and in the order of the file. *)
Theorem load_frame_ravel (file : list byte) (ntx nrx nc ns : nat)
  (frame : array5) :
  load_frame file ntx nrx nc ns = Ok frame ->
  concat (concat (concat (concat frame))) = fromfile_int16 file.
Proof.
  unfold load_frame, reshape5.
  destruct (Nat.eqb_spec (length (fromfile_int16 file))
              (ntx * nrx * nc * ns * 2)) as [Hlen|]; [|discriminate].
  intros H. injection H as <-.
  set (a := fromfile_int16 file) in *.
  assert (R2 : forall r : list Z, length r = (nc * (ns * 2))%nat ->
             concat (concat (map (fun c => split_rows ns 2 c)
                                 (split_rows nc (ns * 2) r))) = r).
  { intros r Hr. rewrite concat2_map.
    rewrite (concat_map_id _ (fun c => c)).
    - rewrite map_id. now apply ravel_split.
    - eapply Forall_impl; [|apply split_rows_row_length; lia].
      intros c Hc. now apply ravel_split. }
  assert (R3 : forall t : list Z, length t = (nrx * (nc * (ns * 2)))%nat ->
             concat (concat (concat
               (map (fun r => map (fun c => split_rows ns 2 c)
                                  (split_rows nc (ns * 2) r))
                    (split_rows nrx (nc * ns * 2) t)))) = t).
  { intros t Ht. rewrite !concat2_map.
    rewrite (concat_map_id _ (fun r => r)).
    - rewrite map_id. apply ravel_split. lia.
    - eapply Forall_impl; [|apply split_rows_row_length; lia].
      intros r Hr. cbv beta in Hr. apply R2. lia. }
  rewrite !concat2_map.
  rewrite (concat_map_id _ (fun t => t)).
  - rewrite map_id. apply ravel_split. lia.
  - eapply Forall_impl; [|apply split_rows_row_length; lia].
    intros t Ht. cbv beta in Ht. apply R3. lia.
Qed.

(** The frame of two antenna pairs. *)
Lemma load_frame_ravel_witness :
  exists frame,
    load_frame (le16s (chirp_a ++ chirp_b)) 1 2 1 4 = Ok frame /\
    concat (concat (concat (concat frame))) = chirp_a ++ chirp_b.
Proof.
  eexists. split; [reflexivity|].
  apply (load_frame_ravel (le16s (chirp_a ++ chirp_b)) 1 2 1 4).
  reflexivity.
Defined.

(* ================================================================== *)
(** * More on the waveform calibration *)
(* ================================================================== *)

(** What a run that returns went through. *)
Lemma waveform_calibration_inv fft file cfg ref r :
  waveform_calibration fft file cfg ref = Ok r ->
  exists res bins frame,
    rres cfg = Ok res /\
    ref_bins res ref = Ok bins /\
    load_frame file (ntx cfg) (nrx cfg) (numChirpLoops cfg)
      (numAdcSamples cfg) = Ok frame /\
    calibrate_profile (range_profile fft (numAdcSamples cfg) frame)
      (numAdcSamples cfg) bins ref (fsample cfg) (fslope cfg) = Ok r.
Proof.
  unfold waveform_calibration.
  destruct (rres cfg) as [res|] eqn:Er; [|discriminate]. cbn [bind].
  destruct (ref_bins res ref) as [bins|] eqn:Eb; [|discriminate].
  cbn [bind].
  destruct (load_frame _ _ _ _ _) as [frame|] eqn:Ef; [|discriminate].
  cbn [bind].
  intros H. exists res, bins, frame. auto.
Qed.

Lemma shape2_map2 {A B : Type} (f : A -> B) n m (a : list (list A)) :
  shape2 n m a -> shape2 n m (map (map f) a).
Proof.
  intros [Hn Hm]. split; [now rewrite length_map|].
  apply Forall_map. eapply Forall_impl; [|exact Hm].
  intros row Hrow. cbv beta. now rewrite length_map.
Qed.

Lemma load_frame_shape file ntx nrx nc ns frame :
  load_frame file ntx nrx nc ns = Ok frame -> shape2 ntx nrx frame.
Proof.
  unfold load_frame, reshape5.
  destruct (_ =? _)%nat; [|discriminate].
  intros H. injection H as <-. split.
  - now rewrite length_map, split_rows_length.
  - apply Forall_map, Forall_forall. intros t _.
    now rewrite length_map, split_rows_length.
Qed.

Lemma calibrate_profile_shapes
  rfft ns bins ref f_sample f_slope freq phase n m :
  calibrate_profile rfft ns bins ref f_sample f_slope = Ok (freq, phase) ->
  shape2 n m rfft ->
  shape2 n m freq /\ shape2 n m phase.
Proof.
  intros Hc Sf.
  destruct (calibrate_profile_inv _ _ _ _ _ _ _ _ Hc)
    as [pi' [pk [p00 [i00 [Hs [_ [_ [_ [-> ->]]]]]]]]].
  destruct (peak_search_shape _ _ _ _ _ Hs) as [_ [-> ->]].
  split; repeat apply shape2_map2; exact Sf.
Qed.

Lemma range_profile_shape fft ns frame n m :
  shape2 n m frame -> shape2 n m (range_profile fft ns frame).
Proof.
  intros S. unfold range_profile, iq. now repeat apply shape2_map2.
Qed.

(** X4.  A run that returns gives one frequency value and one phase/amplitude
    pair per antenna pair of the configuration: two [ntx] by [nrx] arrays. *)
Theorem waveform_calibration_shapes
  (fft : nat -> list complex -> list complex)
  (file : list byte) (cfg : config) (ref : Q)
  (freq : list (list float64)) (phase : list (list (float64 * float64))) :
  waveform_calibration fft file cfg ref = Ok (freq, phase) ->
  shape2 (ntx cfg) (nrx cfg) freq /\ shape2 (ntx cfg) (nrx cfg) phase.
Proof.
  intros H.
  destruct (waveform_calibration_inv _ _ _ _ _ H)
    as [res [bins [frame [_ [_ [Hf Hc]]]]]].
  apply (calibrate_profile_shapes _ _ _ _ _ _ _ _ _ _ Hc).
  apply range_profile_shape.
  exact (load_frame_shape _ _ _ _ _ _ Hf).
Qed.

(** Two antenna pairs. *)
Lemma waveform_calibration_shapes_witness :
  shape2 1 2 [[Fin 0; Fin (176855943800711 # 2814749767106560000000)]] /\
  shape2 1 2 [[(Fin 1, Fin 0); (Fin 0, Fin (-1 # 5))]].
Proof.
  apply (waveform_calibration_shapes dft (le16s (chirp_a ++ chirp_b))
           (cfg4 1 2 1) 2).
  vm_compute. reflexivity.
Defined.



(** A zero sampling frequency next to a slope that is an integer beyond the
    float range: line 47 raises before anything is divided. *)
Example degenerate_configuration_overflows :
  waveform_calibration dft [x00]
    (mkConfig 1 1 1 4 (inject_Z (10 ^ 400)) 0) 2 = Raise OverflowError.
Proof. vm_compute. reflexivity. Qed.

Lemma cdivide_nonzero a p :
  is_zero p = false ->
  cdivide a p =
  (Fin (Qred ((re a * re p + im a * im p) / abs2 p)),
   Fin (Qred ((im a * re p - re a * im p) / abs2 p))).
Proof.
  intros Hz. unfold cdivide.
  now rewrite Hz, !true_divide_fin by now apply abs2_nonzero.
Qed.

(** X7.  The phase/amplitude entry of an antenna pair with a non-zero peak is
    the finite complex number that, multiplied by the pair's own peak, gives
    the peak of the reference antenna. *)
Theorem phase_entry_corrects_peak
  (rfft : list (list (list complex))) (ns : nat) (bins : Z * Z)
  (ref f_sample f_slope : Q)
  (freq : list (list float64)) (phase : list (list (float64 * float64)))
  (peaks_idx : list (list Z)) (peaks : list (list complex))
  (p00 p : complex) (tx rx : nat) :
  calibrate_profile rfft ns bins ref f_sample f_slope = Ok (freq, phase) ->
  peak_search rfft ns bins = Ok (peaks_idx, peaks) ->
  item2 peaks 0 0 = Ok p00 ->
  item2 peaks tx rx = Ok p ->
  is_zero p = false ->
  exists a b,
    item2 phase tx rx = Ok (Fin a, Fin b) /\ cmul_is a b p p00.
Proof.
  intros H Hs Hp0 Hp Hz.
  destruct (calibrate_profile_inv _ _ _ _ _ _ _ _ H)
    as [pi' [pk' [p00' [i00 [Hs' [Hp0' [_ [_ [_ ->]]]]]]]]].
  rewrite Hs in Hs'. injection Hs' as <- <-.
  rewrite Hp0 in Hp0'. injection Hp0' as <-.
  rewrite item2_map2, Hp, (cdivide_nonzero p00 p Hz).
  do 2 eexists. split; [reflexivity|].
  pose proof (abs2_nonzero p Hz) as Hn. unfold cmul_is, abs2 in *.
  rewrite !Qred_correct. split; field; exact Hn.
Qed.

(** The peaks 4 and 20j: the entry -0.2j times 20j is 4. *)
Lemma phase_entry_corrects_peak_witness :
  exists a b,
    item2 [[(Fin 1, Fin 0); (Fin 0, Fin (-1 # 5))]] 0 1 = Ok (Fin a, Fin b) /\
    cmul_is a b (mkC 0 20) (mkC 4 0).
Proof.
  apply (phase_entry_corrects_peak
           [[spectrum_a; [c0; c0; mkC 0 20; c0]]] 4 (1, 4)%Z 2 1 1
           [[Fin 0; Fin pi]]
           [[(Fin 1, Fin 0); (Fin 0, Fin (-1 # 5))]]
           [[0; 1]]%Z [[mkC 4 0; mkC 0 20]] (mkC 4 0) (mkC 0 20) 0 1);
    vm_compute; reflexivity.
Defined.

(** X8.  The frequency entry of an antenna pair is zero exactly when its peak is
    in the same bin as the peak of the reference antenna, the reference
    distance and the sampling frequency not being zero. *)
Theorem frequency_entry_zero_iff_same_bin
  (rfft : list (list (list complex))) (ns : nat) (bins : Z * Z)
  (ref f_sample f_slope : Q)
  (freq : list (list float64)) (phase : list (list (float64 * float64)))
  (peaks_idx : list (list Z)) (peaks : list (list complex))
  (tx rx : nat) (idx idx0 : Z) :
  calibrate_profile rfft ns bins ref f_sample f_slope = Ok (freq, phase) ->
  peak_search rfft ns bins = Ok (peaks_idx, peaks) ->
  item2 peaks_idx tx rx = Ok idx ->
  item2 peaks_idx 0 0 = Ok idx0 ->
  ~ ref == 0 -> ~ f_sample == 0 ->
  (item2 freq tx rx = Ok (Fin 0) <-> idx = idx0).
Proof.
  intros H Hs Hi Hi0 Hr Hf.
  destruct (calibrate_profile_inv _ _ _ _ _ _ _ _ H)
    as [pi' [pk' [p00 [i00 [Hs' [_ [Hi0' [Hn [-> _]]]]]]]]].
  rewrite Hs in Hs'. injection Hs' as <- <-.
  rewrite Hi0 in Hi0'. injection Hi0' as <-.
  rewrite item2_map2, Hi.
  destruct (freq_entry_fin (idx - idx0) ref (Qred (f_sample / f_slope)) Hr)
    as [q [E Q]].
  rewrite E. split.
  - intros Hq. injection Hq as Hq. rewrite Hq in Q.
    assert (Hpi : ~ pi == 0) by (intros Hp; discriminate Hp).
    assert (Hratio : ~ f_sample / f_slope == 0).
    { intros Hz. apply Hf.
      rewrite <- (Qmult_div_r f_sample f_slope) by exact Hn.
      rewrite Hz. ring. }
    rewrite Qred_correct in Q.
    assert (Hd : inject_Z (idx - idx0) == 0).
    { destruct (Qeq_dec (inject_Z (idx - idx0)) 0) as [|Hne];
        [assumption|].
      exfalso.
      assert (Hprod : ~ 2 * pi * (inject_Z (idx - idx0) / ref)
                        * (f_sample / f_slope) == 0).
      { intros Hz. apply Qmult_integral in Hz. destruct Hz as [Hz|Hz];
          [|contradiction].
        apply Qmult_integral in Hz. destruct Hz as [Hz|Hz].
        - apply Hpi. lra.
        - apply Hne.
          rewrite <- (Qmult_div_r (inject_Z (idx - idx0)) ref) by exact Hr.
          rewrite Hz. ring. }
      apply Hprod. symmetry. exact Q. }
    unfold Qeq in Hd. simpl in Hd. lia.
  - intros ->. rewrite Z.sub_diag in E.
    rewrite freq_entry_zero in E by exact Hr. congruence.
Qed.

(** The reference antenna itself, and a pair one bin away. *)
Lemma frequency_entry_zero_iff_same_bin_witness :
  (item2 [[Fin 0; Fin (176855943800711 # 2814749767106560000000)]] 0 1
   = Ok (Fin 0) <-> 1%Z = 0%Z).
Proof.
  apply (frequency_entry_zero_iff_same_bin
           [[spectrum_a; [c0; c0; mkC 0 20; c0]]] 4 (1, 4)%Z 2
           (fsample (cfg4 1 2 1)) (fslope (cfg4 1 2 1))
           [[Fin 0; Fin (176855943800711 # 2814749767106560000000)]]
           [[(Fin 1, Fin 0); (Fin 0, Fin (-1 # 5))]]
           [[0; 1]]%Z [[mkC 4 0; mkC 0 20]] 0 1 1 0);
    try (vm_compute; reflexivity); discriminate.
Defined.

(** X9.  Whatever the two bounds of the window are, negative or past the end of
    the axis, a search that succeeds selects for every antenna pair a bin of
    the sample axis, inside the clipped window, holding a value that no
    other bin of the clipped window exceeds. *)
Theorem peak_stays_on_sample_axis
  (rfft : list (list (list complex))) (ns : nat) (lo hi : Z)
  (peaks_idx : list (list Z)) (peaks : list (list complex))
  (tx rx : nat) (row : list complex) :
  peak_search rfft ns (lo, hi) = Ok (peaks_idx, peaks) ->
  item2 rfft tx rx = Ok row -> length row = ns ->
  exists idx peak,
    item2 peaks_idx tx rx = Ok idx /\
    item2 peaks tx rx = Ok peak /\
    (0 <= clipped ns lo <= clipped ns lo + idx)%Z /\
    (clipped ns lo + idx < clipped ns hi <= Z.of_nat ns)%Z /\
    nth_error row (Z.to_nat (clipped ns lo + idx)) = Some peak /\
    (forall k x, (clipped ns lo <= k < clipped ns hi)%Z ->
       nth_error row (Z.to_nat k) = Some x -> ~ lex_gt x peak).
Proof.
  intros Hs Hrow Hns.
  destruct (peak_search_shape _ _ _ _ _ Hs) as [Hlen _]. cbn [fst snd] in Hlen.
  destruct (peak_search_spec rfft ns lo hi Hlen) as [pi' [pk' [Hs' Hall]]].
  rewrite Hs in Hs'. injection Hs' as <- <-.
  destruct (Hall tx rx row Hrow Hns) as [r [peak [Ei [Ep [Hr [Hv [Hmax _]]]]]]].
  pose proof (clip_range (Z.of_nat ns) lo (Nat2Z.is_nonneg _)) as Clo.
  pose proof (clip_range (Z.of_nat ns) hi (Nat2Z.is_nonneg _)) as Chi.
  unfold slice_len in Hr. unfold slice_start in Hv, Hmax.
  exists (Z.of_nat r), peak. unfold clipped.
  repeat split; try assumption; try lia.
  - replace (Z.to_nat (clip (Z.of_nat ns) lo + Z.of_nat r))
      with (Z.to_nat (clip (Z.of_nat ns) lo) + r)%nat by lia.
    exact Hv.
  - intros k x Hk Hx. apply cgt_false_iff.
    apply (Hmax (Z.to_nat (k - clip (Z.of_nat ns) lo))).
    + unfold slice_len. lia.
    + replace (Z.to_nat (clip (Z.of_nat ns) lo)
               + Z.to_nat (k - clip (Z.of_nat ns) lo))%nat
        with (Z.to_nat k) by lia.
      exact Hx.
Qed.

(** The window [-2, 9) on four samples is the bins 2 and 3. *)
Lemma peak_stays_on_sample_axis_witness :
  exists idx peak,
    item2 [[0%Z]] 0 0 = Ok idx /\
    item2 [[mkC 0 20]] 0 0 = Ok peak /\
    (0 <= clipped 4 (-2) <= clipped 4 (-2) + idx)%Z /\
    (clipped 4 (-2) + idx < clipped 4 9 <= 4)%Z /\
    nth_error spectrum_a (Z.to_nat (clipped 4 (-2) + idx)) = Some peak /\
    (forall k x, (clipped 4 (-2) <= k < clipped 4 9)%Z ->
       nth_error spectrum_a (Z.to_nat k) = Some x -> ~ lex_gt x peak).
Proof.
  apply (peak_stays_on_sample_axis [[spectrum_a]] 4 (-2) 9
           [[0%Z]] [[mkC 0 20]] 0 0 spectrum_a); reflexivity.
Defined.

(* ------------------------------------------------------------------ *)
(** ** A gain common to all antennas *)

Lemma cscale_re k c : re (cscale k c) == k * re c.
Proof. apply Qred_correct. Qed.

Lemma cscale_im k c : im (cscale k c) == k * im c.
Proof. apply Qred_correct. Qed.

Lemma lex_gt_cscale k a b :
  0 < k -> (lex_gt (cscale k a) (cscale k b) <-> lex_gt a b).
Proof.
  intros Hk. unfold lex_gt.
  rewrite !cscale_re, !cscale_im.
  rewrite !(Qmult_lt_l _ _ k Hk).
  rewrite (Qmult_inj_l (re a) (re b) k) by lra.
  reflexivity.
Qed.

Lemma cgt_cscale k a b :
  0 < k -> cgt (cscale k a) (cscale k b) = cgt a b.
Proof.
  intros Hk.
  destruct (cgt a b) eqn:E.
  - apply cgt_iff, lex_gt_cscale; [exact Hk|]. now apply cgt_iff.
  - apply cgt_false_iff. rewrite lex_gt_cscale by exact Hk.
    now apply cgt_false_iff.
Qed.

Lemma argmax_loop_cscale k l : forall mp mi i,
  0 < k ->
  argmax_loop (cscale k mp) mi i (map (cscale k) l) = argmax_loop mp mi i l.
Proof.
  induction l as [|x t IH]; intros mp mi i Hk; [reflexivity|].
  cbn [map argmax_loop]. rewrite cgt_cscale by exact Hk.
  destruct (cgt x mp); now apply IH.
Qed.

Lemma argmax_cscale k l : 0 < k -> argmax (map (cscale k) l) = argmax l.
Proof.
  intros Hk. destruct l as [|x t]; [reflexivity|].
  cbn [map argmax]. now rewrite argmax_loop_cscale.
Qed.

Lemma cscale_c0 k : cscale k c0 = c0.
Proof.
  unfold cscale, c0. cbn [re im].
  now rewrite (Qred_complete (k * 0) 0) by ring.
Qed.

Lemma fold_maximum_cscale k l : forall x,
  0 < k ->
  fold_left maximum (map (cscale k) l) (cscale k x) =
  cscale k (fold_left maximum l x).
Proof.
  induction l as [|y t IH]; intros x Hk; [reflexivity|].
  cbn [map fold_left]. unfold maximum at 2 4.
  rewrite !cge_cgt, cgt_cscale by exact Hk.
  destruct (cgt y x); cbn [negb]; now apply IH.
Qed.

Lemma amax_cscale k l : 0 < k -> amax (map (cscale k) l) = cscale k (amax l).
Proof.
  intros Hk. destruct l as [|x t].
  - cbn. symmetry. apply cscale_c0.
  - cbn [map amax]. now apply fold_maximum_cscale.
Qed.

Lemma slice_map {A B : Type} (f : A -> B) l lo hi :
  slice (map f l) lo hi = map f (slice l lo hi).
Proof.
  unfold slice. now rewrite length_map, skipn_map, firstn_map.
Qed.

Lemma is_zero_cscale k p : 0 < k -> is_zero (cscale k p) = is_zero p.
Proof.
  intros Hk. unfold is_zero.
  assert (E : forall x, Qeq_bool (Qred (k * x)) 0 = Qeq_bool x 0).
  { intros x. destruct (Qeq_bool x 0) eqn:Ex.
    - apply Qeq_bool_iff. apply Qeq_bool_iff in Ex.
      rewrite Qred_correct, Ex. ring.
    - apply Qeq_bool_neq in Ex.
      destruct (Qeq_bool (Qred (k * x)) 0) eqn:Ey; [|reflexivity].
      apply Qeq_bool_iff in Ey. rewrite Qred_correct in Ey.
      exfalso. apply Ex.
      apply (Qmult_inj_l x 0 k); [lra|]. rewrite Ey. ring. }
  unfold cscale. cbn [re im]. now rewrite !E.
Qed.

Lemma true_divide_zero_cscale k x :
  0 < k -> true_divide (Qred (k * x)) 0 = true_divide x 0.
Proof.
  intros Hk. unfold true_divide. cbn [Qeq_bool].
  change (Qeq_bool 0 0) with true. cbv iota.
  assert (E : (Qred (k * x) ?= 0) = (x ?= 0)).
  { rewrite (Qcompare_comp _ _ (Qred_correct (k * x)) 0 0 (Qeq_refl 0)).
    destruct (Qcompare_spec x 0) as [H|H|H].
    - apply Qeq_alt. rewrite H. ring.
    - apply Qlt_alt. setoid_replace 0 with (k * 0) by ring.
      now apply Qmult_lt_l.
    - apply Qgt_alt. now apply Qmult_lt_0_compat. }
  now rewrite E.
Qed.

Lemma cdivide_cscale k a p :
  0 < k -> cdivide (cscale k a) (cscale k p) = cdivide a p.
Proof.
  intros Hk. destruct (is_zero p) eqn:Hz.
  - rewrite !cdivide_by_zero by (rewrite ?is_zero_cscale; assumption).
    unfold cscale. cbn [re im].
    now rewrite !true_divide_zero_cscale.
  - rewrite !cdivide_nonzero by (rewrite ?is_zero_cscale; assumption).
    pose proof (abs2_nonzero p Hz) as Hn.
    assert (Hn' : ~ abs2 (cscale k p) == 0)
      by (apply abs2_nonzero; now rewrite is_zero_cscale).
    unfold abs2 in *.
    f_equal; f_equal; apply Qred_complete;
      rewrite !cscale_re, !cscale_im in *; field; split; lra || exact Hn.
Qed.

Lemma map2_map2 {A B D : Type} (f : B -> D) (g : A -> B) m :
  map (map f) (map (map g) m) = map (map (fun x => f (g x))) m.
Proof.
  rewrite map_map. apply map_ext. intros row. apply map_map.
Qed.

Lemma map2_ext {A B : Type} (f g : A -> B) (m : list (list A)) :
  (forall x, f x = g x) -> map (map f) m = map (map g) m.
Proof.
  intros H. apply map_ext. intros row. now apply map_ext.
Qed.

Lemma phase_calibration_cscale k peaks :
  0 < k ->
  phase_calibration (map (map (cscale k)) peaks) = phase_calibration peaks.
Proof.
  intros Hk. unfold phase_calibration. rewrite item2_map2.
  destruct (item2 peaks 0 0) as [p00|e]; [|reflexivity]. cbn [bind].
  f_equal. rewrite map2_map2. apply map2_ext.
  intros p. now apply cdivide_cscale.
Qed.

(** X10.  A positive gain applied to the whole range profile, the same for every
    antenna pair and bin, changes neither calibration matrix, nor whether
    the run fails. *)
Theorem calibration_ignores_common_gain
  (rfft : list (list (list complex))) (ns : nat) (bins : Z * Z)
  (ref f_sample f_slope k : Q) :
  0 < k ->
  calibrate_profile (map (map (map (cscale k))) rfft) ns bins
    ref f_sample f_slope =
  calibrate_profile rfft ns bins ref f_sample f_slope.
Proof.
  intros Hk. unfold calibrate_profile, peak_search.
  destruct bins as [lo hi].
  destruct (slice_len (Z.of_nat ns) lo hi =? 0)%nat; [reflexivity|].
  cbn [bind fst snd].
  assert (Ei : map (map (fun row => argmax (slice row lo hi)))
                   (map (map (map (cscale k))) rfft)
               = map (map (fun row => argmax (slice row lo hi))) rfft).
  { rewrite map2_map2. apply map2_ext. intros row.
    now rewrite slice_map, argmax_cscale. }
  assert (Ep : map (map (fun row => amax (slice row lo hi)))
                   (map (map (map (cscale k))) rfft)
               = map (map (cscale k))
                     (map (map (fun row => amax (slice row lo hi))) rfft)).
  { rewrite !map2_map2. apply map2_ext. intros row.
    now rewrite slice_map, amax_cscale. }
  now rewrite Ei, Ep, phase_calibration_cscale.
Qed.

(** The two spectra with peaks 4 and 20j, three times as strong. *)
Lemma calibration_ignores_common_gain_witness :
  calibrate_profile
    (map (map (map (cscale 3))) [[spectrum_a; [c0; c0; mkC 0 20; c0]]])
    4 (1, 4)%Z 2 1 1 =
  Ok ([[Fin 0; Fin pi]], [[(Fin 1, Fin 0); (Fin 0, Fin (-1 # 5))]]).
Proof.
  rewrite (calibration_ignores_common_gain
             [[spectrum_a; [c0; c0; mkC 0 20; c0]]] 4 (1, 4)%Z 2 1 1 3)
    by reflexivity.
  vm_compute. reflexivity.
Defined.

(* ================================================================== *)
(** * The command-line script *)
(* ================================================================== *)

Lemma length_concat_rows {A : Type} (l : list (list A)) m :
  Forall (fun row => length row = m) l ->
  length (concat l) = (length l * m)%nat.
Proof.
  induction 1 as [|row l Hrow _ IH]; [reflexivity|].
  cbn [concat length]. rewrite length_app, Hrow, IH. lia.
Qed.

Lemma shape2_concat_length {A : Type} n m (a : list (list A)) :
  shape2 n m a -> length (concat a) = (n * m)%nat.
Proof.
  intros [Hn Hm]. rewrite (length_concat_rows a m Hm), Hn. reflexivity.
Qed.

Lemma coupling_calibration_shape file ntx nrx nc ns m :
  coupling_calibration file ntx nrx nc ns = Ok m ->
  shape2 ntx nrx m /\
  Forall (fun pair => length pair = 2%nat) (concat m).
Proof.
  unfold coupling_calibration.
  destruct (load_frame file ntx nrx nc ns) as [frame|] eqn:Ef;
    [|discriminate].
  cbn [bind]. intros H. injection H as <-.
  split.
  - apply shape2_map2. exact (load_frame_shape _ _ _ _ _ _ Ef).
  - apply Forall_concat, Forall_map, Forall_forall. intros row _.
    apply Forall_map, Forall_forall. intros block _. reflexivity.
Qed.

Module CliFacts.

Import Stdlib.Strings.String Stdlib.Strings.Ascii Cli.
Local Open Scope string_scope.

(** ** Paths *)

Lemma split_nonempty s : split s <> [].
Proof.
  destruct s as [|c s]; cbn; [discriminate|].
  destruct (c =? sep)%char; [discriminate|].
  destruct (split s); discriminate.
Qed.

Lemma join_cons_char c h t :
  join (String c h :: t) = String c (join (h :: t)).
Proof. unfold join. destruct t; reflexivity. Qed.

(** [os.sep.join(s.split(os.sep))] is [s]. *)
Lemma join_split s : join (split s) = s.
Proof.
  induction s as [|c s IH]; [reflexivity|]. cbn [split].
  destruct (Ascii.eqb_spec c sep) as [->|Hc].
  - destruct (split s) as [|h t] eqn:E; [now apply split_nonempty in E|].
    change (join (EmptyString :: h :: t)) with ("" ++ "/" ++ join (h :: t)).
    rewrite IH. reflexivity.
  - destruct (split s) as [|h t] eqn:E; [now apply split_nonempty in E|].
    now rewrite join_cons_char, IH.
Qed.

Lemma split_no_sep s : no_sep s = true -> split s = [s].
Proof.
  induction s as [|c s IH]; [reflexivity|]. cbn [no_sep split].
  intros H. apply andb_prop in H. destruct H as [Hc Hs].
  apply negb_true_iff in Hc. rewrite Hc, (IH Hs). reflexivity.
Qed.

(** Splitting a path whose last component is [n]. *)
Lemma split_app_sep d n :
  no_sep n = true -> split (d ++ String sep n) = (split d ++ [n])%list.
Proof.
  intros Hn. induction d as [|c d IH].
  - cbn [append split]. rewrite Ascii.eqb_refl. now rewrite split_no_sep.
  - cbn [append split]. rewrite IH.
    destruct (c =? sep)%char; [reflexivity|].
    destruct (split d) as [|h t] eqn:E; [now apply split_nonempty in E|].
    reflexivity.
Qed.

(** X11.  Without [-o], the output directory is the directory [calibration] next
    to the input file when the input path has a directory part; for an
    input path without a separator, a file of the current directory, it
    is [/calibration], under the root. *)
Theorem default_output_directory (d n : string) :
  no_sep n = true ->
  default_output (d ++ "/" ++ n) = d ++ "/calibration" /\
  default_output n = "/calibration".
Proof.
  intros Hn. unfold default_output. split.
  - change (d ++ "/" ++ n) with (d ++ String sep n).
    now rewrite split_app_sep, removelast_last, join_split.
  - now rewrite split_no_sep.
Qed.

(** A frame in [data/run1], and a frame in the current directory. *)
Lemma default_output_directory_witness :
  default_output "data/run1/frame.bin" = "data/run1/calibration" /\
  default_output "frame.bin" = "/calibration".
Proof.
  apply (default_output_directory "data/run1" "frame.bin"). reflexivity.
Defined.

(** ** The answer to the prompt *)

Lemma lower_ascii_is_y c :
  lower_ascii c = "y"%char <-> c = "y"%char \/ c = "Y"%char.
Proof.
  destruct c as [[] [] [] [] [] [] [] []]; vm_compute;
    (split; [intros H; try discriminate H; auto
            | intros [H|H]; try discriminate H; reflexivity]).
Qed.

Lemma lower_is_y ack : lower ack = "y" <-> ack = "y" \/ ack = "Y".
Proof.
  destruct ack as [|c [|c' t]]; cbn [lower].
  - split; [discriminate | intros [H|H]; discriminate H].
  - split.
    + intros H. injection H as H. apply lower_ascii_is_y in H.
      destruct H as [->| ->]; auto.
    + intros [H|H]; injection H as ->; reflexivity.
  - split; [discriminate | intros [H|H]; discriminate H].
Qed.

(** ** Traces *)

Lemma in_emit e x r : In e (fst (emit x r)) <-> x = e \/ In e (fst r).
Proof. reflexivity. Qed.

Lemma write_in_ensure_dir E out k e :
  In e (fst (ensure_dir E out k)) -> is_write e = true -> In e (fst k).
Proof.
  unfold ensure_dir.
  destruct (path_exists E out); [auto|].
  destruct (makedirs_ok E out); [|intros []].
  intros [<-|H] Hw; [discriminate Hw | exact H].
Qed.

Lemma write_in_ask E yes e :
  In e (fst (ask E yes declined)) -> is_write e = true ->
  consents E /\ In e (fst yes).
Proof.
  unfold ask, consents. intros [<-|H] Hw; [discriminate Hw|].
  destruct (stdin_line E) as [ack|]; [|destruct H].
  destruct (String.eqb_spec (lower ack) "y") as [Hy|_].
  - apply lower_is_y in Hy. destruct Hy as [->| ->]; auto.
  - destruct H as [<-|[]]. discriminate Hw.
Qed.

Lemma write_in_to_file E p dt d k e :
  In e (fst (to_file E p dt d k)) -> ToFile p dt d = e \/ In e (fst k).
Proof.
  unfold to_file. destruct (can_write E p); [auto | intros []].
Qed.

Lemma write_in_json_dump E p ctx k e :
  In e (fst (json_dump E p ctx k)) -> JsonDump p ctx = e \/ In e (fst k).
Proof.
  unfold json_dump. destruct (can_write E p); [auto | intros []].
Qed.

(** The writes of the coupling branch. *)
Lemma coupling_branch_writes E a inp out e :
  In e (fst (coupling_branch E a inp out)) -> is_write e = true ->
  consents E /\ inp <> "" /\
  exists bytes m,
    file_bytes E inp = Some bytes /\
    coupling_calibration bytes (num_tx a) (num_rx a) (num_chirp_loops a)
      (num_samples a) = Ok m /\
    (e = ToFile (path_join out "coupling_calibration.bin") F32
           (List.concat (List.concat m)) \/
     e = JsonDump (path_join out "coupling_cfg.json")
           (mkContext (num_tx a) (num_rx a)
              (CouplingData "coupling_calibration.bin"))).
Proof.
  unfold coupling_branch. intros Hin Hw.
  destruct (String.eqb_spec inp "") as [|Hne].
  { destruct Hin as [<-|[]]. discriminate Hw. }
  destruct Hin as [<-|Hin]; [discriminate Hw|].
  apply write_in_ask in Hin; [|exact Hw]. destruct Hin as [Hc Hin].
  unfold call_coupling in Hin.
  destruct (file_bytes E inp) as [bytes|] eqn:Ef; [|destruct Hin].
  destruct (coupling_calibration bytes _ _ _ _) as [m|] eqn:Em;
    [|destruct Hin].
  split; [exact Hc|]. split; [exact Hne|].
  exists bytes, m. split; [reflexivity|]. split; [exact Em|].
  apply write_in_to_file in Hin. destruct Hin as [<-|Hin]; [now left|].
  apply write_in_json_dump in Hin. destruct Hin as [<-|Hin]; [now right|].
  destruct Hin as [<-|[]]. discriminate Hw.
Qed.

(** The writes of the waveform branch. *)
Lemma waveform_branch_writes fft E a inp out e :
  In e (fst (waveform_branch fft E a inp out)) -> is_write e = true ->
  consents E /\ inp <> "" /\
  exists cfg_path cfg ref bytes freq phase,
    calibration_config a = Some cfg_path /\
    config_json E cfg_path = Some cfg /\
    reference a = Some ref /\
    file_bytes E inp = Some bytes /\
    waveform_calibration fft bytes cfg ref = Ok (freq, phase) /\
    (e = ToFile (path_join out "frequency_calibration.bin") F64
           (List.concat freq) \/
     e = ToFile (path_join out "phase_amp_calibration.bin") F64
           (ravel_pairs phase) \/
     e = JsonDump (path_join out "waveform_calib_cfg.json")
           (mkContext (num_tx a) (num_rx a)
              (WaveformData "frequency_calibration.bin"
                 "phase_amp_calibration.bin"))).
Proof.
  unfold waveform_branch. intros Hin Hw.
  destruct (String.eqb_spec inp "") as [|Hne].
  { destruct Hin as [<-|[]]. discriminate Hw. }
  cbn [orb] in Hin.
  destruct (missing (calibration_config a)).
  { destruct Hin as [<-|[]]. discriminate Hw. }
  destruct (reference a) as [ref|];
    [|destruct Hin as [<-|[]]; discriminate Hw].
  destruct (calibration_config a) as [cfg_path|];
    [|destruct Hin as [<-|[]]; discriminate Hw].
  destruct Hin as [<-|Hin]; [discriminate Hw|].
  apply write_in_ask in Hin; [|exact Hw]. destruct Hin as [Hc Hin].
  unfold call_waveform in Hin.
  destruct (config_json E cfg_path) as [cfg|] eqn:Ecfg; [|destruct Hin].
  destruct (file_bytes E inp) as [bytes|] eqn:Ef;
    [|destruct (window_of cfg ref); destruct Hin].
  destruct (waveform_calibration fft bytes cfg ref) as [[freq phase]|] eqn:Ew;
    [|destruct Hin].
  split; [exact Hc|]. split; [exact Hne|].
  exists cfg_path, cfg, ref, bytes, freq, phase.
  split; [reflexivity|]. split; [exact Ecfg|]. split; [reflexivity|].
  split; [reflexivity|]. split; [exact Ew|].
  apply write_in_to_file in Hin. destruct Hin as [<-|Hin]; [now left|].
  apply write_in_to_file in Hin.
  destruct Hin as [<-|Hin]; [now right; left|].
  apply write_in_json_dump in Hin.
  destruct Hin as [<-|Hin]; [now right; right|].
  destruct Hin as [<-|[]]. discriminate Hw.
Qed.

(** The writes of the script are those of one of its two branches. *)
Lemma main_writes fft E a e :
  In e (fst (main fft E a)) -> is_write e = true ->
  exists inp,
    input a = Some inp /\
    ((coupling_flag a = true /\
      In e (fst (coupling_branch E a inp (output_dir a inp)))) \/
     (coupling_flag a = false /\ waveform_flag a = true /\
      In e (fst (waveform_branch fft E a inp (output_dir a inp))))).
Proof.
  unfold main. intros Hin Hw.
  destruct (input a) as [inp|];
    [|destruct Hin as [<-|[]]; discriminate Hw].
  apply write_in_ensure_dir in Hin; [|exact Hw].
  exists inp. split; [reflexivity|].
  destruct (coupling_flag a); [left; split; [reflexivity | exact Hin]|].
  destruct (waveform_flag a);
    [|destruct Hin as [<-|[]]; discriminate Hw].
  right. repeat split. exact Hin.
Qed.

(** ** What the script does and does not do *)

(** X12.  A file is written only when the user answered y or Y to the prompt, the
    input path is not empty, the frame file and, for the waveform calibration,
    the configuration could be read, and the calibration function returned:
    a calibration that raises leaves no file behind. *)
Theorem files_are_written_only_after_success
  (fft : nat -> list complex -> list complex) (E : env) (a : args)
  (e : event) :
  In e (fst (main fft E a)) -> is_write e = true ->
  consents E /\
  exists inp bytes,
    input a = Some inp /\ inp <> "" /\ file_bytes E inp = Some bytes /\
    ((coupling_flag a = true /\
      exists m,
        coupling_calibration bytes (num_tx a) (num_rx a) (num_chirp_loops a)
          (num_samples a) = Ok m) \/
     (coupling_flag a = false /\ waveform_flag a = true /\
      exists cfg_path cfg ref r,
        calibration_config a = Some cfg_path /\
        config_json E cfg_path = Some cfg /\
        reference a = Some ref /\
        waveform_calibration fft bytes cfg ref = Ok r)).
Proof.
  intros Hin Hw.
  destruct (main_writes fft E a e Hin Hw) as [inp [Ei [[Ec H]|[Ec [Ew H]]]]].
  - destruct (coupling_branch_writes E a inp _ e H Hw)
      as [Hc [Hne [bytes [m [Ef [Em _]]]]]].
    split; [exact Hc|]. exists inp, bytes. repeat split; try assumption.
    left. split; [exact Ec|]. now exists m.
  - destruct (waveform_branch_writes fft E a inp _ e H Hw)
      as [Hc [Hne [cfg_path [cfg [ref [bytes [freq [phase
           [E1 [E2 [E3 [Ef [Er _]]]]]]]]]]]]].
    split; [exact Hc|]. exists inp, bytes. repeat split; try assumption.
    right. repeat split; try assumption.
    now exists cfg_path, cfg, ref, (freq, phase).
Qed.

(** The coupling run on the small frame, with the answer Y. *)
Lemma files_are_written_only_after_success_witness :
  consents (small_frame_env "Y") /\
  exists inp bytes,
    input small_frame_args = Some inp /\ inp <> "" /\
    file_bytes (small_frame_env "Y") inp = Some bytes /\
    ((coupling_flag small_frame_args = true /\
      exists m, coupling_calibration bytes 1 1 2 2 = Ok m) \/
     (coupling_flag small_frame_args = false /\
      waveform_flag small_frame_args = true /\
      exists cfg_path cfg ref r,
        calibration_config small_frame_args = Some cfg_path /\
        config_json (small_frame_env "Y") cfg_path = Some cfg /\
        reference small_frame_args = Some ref /\
        waveform_calibration dft bytes cfg ref = Ok r)).
Proof.
  apply (files_are_written_only_after_success dft (small_frame_env "Y")
           small_frame_args
           (ToFile "d/calibration/coupling_calibration.bin" F32
              [Fin 4; Fin 5])).
  - vm_compute. right. right. right. left. reflexivity.
  - reflexivity.
Defined.

(** X13.  With [-c], the options of the waveform calibration play no part: the
    flag [-w], the configuration file, the reference distance and the
    transform change nothing of what the script does. *)
Theorem coupling_has_priority
  (fft fft' : nat -> list complex -> list complex) (E : env) (a : args)
  (w : bool) (c : option string) (r : option Q) :
  coupling_flag a = true ->
  main fft' E
    (mkArgs (input a) (output a) r (num_samples a) (num_chirp_loops a)
       (num_tx a) (num_rx a) true c w) =
  main fft E a.
Proof.
  intros H. destruct a as [i o r0 ns nc ntx nrx cf c0 w0].
  cbn [coupling_flag] in H. subst cf.
  unfold main. cbn [input output coupling_flag].
  destruct i as [inp|]; reflexivity.
Qed.

(** Both flags on the small frame. *)
Lemma coupling_has_priority_witness :
  main dft (small_frame_env "y")
    (mkArgs (Some "d/f.bin") None (Some 2) 2 2 1 1 true (Some "c.json") true)
  = main dft (small_frame_env "y") small_frame_args.
Proof.
  apply (coupling_has_priority dft dft _ small_frame_args). reflexivity.
Defined.

(** X14.  The output directory is made as soon as an input path is given, before
    anything is asked or checked: also by a run without [-c] and [-w], which
    only prints the help, and by a run that the user declines. *)
Theorem directory_is_made_first
  (fft : nat -> list complex -> list complex) (E : env) (a : args)
  (inp : string) :
  input a = Some inp ->
  path_exists E (output_dir a inp) = false ->
  makedirs_ok E (output_dir a inp) = true ->
  (exists rest, fst (main fft E a) = MakeDirs (output_dir a inp) :: rest) /\
  (coupling_flag a = false -> waveform_flag a = false ->
   main fft E a = ([MakeDirs (output_dir a inp); PrintHelp], Finished)) /\
  (coupling_flag a = true -> inp <> "" ->
   forall ack, stdin_line E = Some ack -> ack <> "y" -> ack <> "Y" ->
   main fft E a =
   ([MakeDirs (output_dir a inp); Print coupling_notice; Input prompt;
     Print "[INFO] No calibration data generated!"], Exit 0)).
Proof.
  intros Hi He Hm. unfold main. rewrite Hi.
  fold (output_dir a inp). unfold ensure_dir. rewrite He, Hm.
  split; [eexists; reflexivity|]. split.
  - intros -> ->. reflexivity.
  - intros -> Hne ack Hack Hy HY. unfold coupling_branch.
    destruct (String.eqb_spec inp "") as [|_]; [contradiction|].
    unfold ask. rewrite Hack.
    destruct (String.eqb_spec (lower ack) "y") as [Hl|_]; [|reflexivity].
    apply lower_is_y in Hl. destruct Hl; contradiction.
Qed.

(** Only an input path: the directory is made and the help is printed. *)
Lemma directory_is_made_first_witness :
  main dft (env_of "frame.bin" [] "" (cfg4 1 1 1) "n")
    (mkArgs (Some "frame.bin") None None 256 16 12 16 false None false)
  = ([MakeDirs "/calibration"; PrintHelp], Finished).
Proof.
  destruct (directory_is_made_first dft
              (env_of "frame.bin" [] "" (cfg4 1 1 1) "n")
              (mkArgs (Some "frame.bin") None None 256 16 12 16 false None
                 false)
              "frame.bin") as [_ [H _]];
    [reflexivity | reflexivity | reflexivity |].
  apply H; reflexivity.
Defined.

(** ** Exit status *)










(** ** What is written *)

Lemma ravel_pairs_length n m (phase : list (list (float64 * float64))) :
  shape2 n m phase -> List.length (ravel_pairs phase) = (n * m * 2)%nat.
Proof.
  intros S. unfold ravel_pairs.
  rewrite (length_concat_rows _ 2).
  - now rewrite length_map, (shape2_concat_length n m).
  - apply Forall_map, Forall_forall. intros p _. reflexivity.
Qed.

(** X16.  The files of a coupling run agree with each other: the data file holds
    [num_tx * num_rx * 2] values as 32-bit floats and the description names
    that file and these two counts, both in the output directory. *)
Theorem coupling_files_agree
  (fft : nat -> list complex -> list complex) (E : env) (a : args)
  (e : event) :
  coupling_flag a = true ->
  In e (fst (main fft E a)) -> is_write e = true ->
  exists inp,
    input a = Some inp /\
    ((exists data,
        e = ToFile (path_join (output_dir a inp) "coupling_calibration.bin")
              F32 data /\
        List.length data = (num_tx a * num_rx a * 2)%nat) \/
     e = JsonDump (path_join (output_dir a inp) "coupling_cfg.json")
           (mkContext (num_tx a) (num_rx a)
              (CouplingData "coupling_calibration.bin"))).
Proof.
  intros Hc Hin Hw.
  destruct (main_writes fft E a e Hin Hw) as [inp [Ei [[_ H]|[Ec _]]]];
    [|congruence].
  exists inp. split; [exact Ei|].
  destruct (coupling_branch_writes E a inp _ e H Hw)
    as [_ [_ [bytes [m [_ [Em [->| ->]]]]]]]; [left | now right].
  eexists. split; [reflexivity|].
  destruct (coupling_calibration_shape _ _ _ _ _ _ Em) as [S F].
  now rewrite (length_concat_rows _ 2 F), (shape2_concat_length _ _ _ S).
Qed.

(** The data file of the small frame. *)
Lemma coupling_files_agree_witness :
  exists inp,
    input small_frame_args = Some inp /\
    ((exists data,
        ToFile "d/calibration/coupling_calibration.bin" F32 [Fin 4; Fin 5] =
        ToFile (path_join (output_dir small_frame_args inp)
                  "coupling_calibration.bin") F32 data /\
        List.length data = (1 * 1 * 2)%nat) \/
     ToFile "d/calibration/coupling_calibration.bin" F32 [Fin 4; Fin 5] =
     JsonDump (path_join (output_dir small_frame_args inp) "coupling_cfg.json")
       (mkContext 1 1 (CouplingData "coupling_calibration.bin"))).
Proof.
  apply (coupling_files_agree dft (small_frame_env "y") small_frame_args).
  - reflexivity.
  - vm_compute. right. right. right. left. reflexivity.
  - reflexivity.
Defined.

(** X17.  The files of a waveform run need not agree: the two data files hold
    one value, and one pair of values, per antenna pair of the configuration
    file, as 64-bit floats, while the description records the antenna counts
    of the command line. *)
Theorem waveform_files_follow_configuration
  (fft : nat -> list complex -> list complex) (E : env) (a : args)
  (e : event) :
  coupling_flag a = false ->
  In e (fst (main fft E a)) -> is_write e = true ->
  exists inp cfg_path cfg,
    input a = Some inp /\
    calibration_config a = Some cfg_path /\
    config_json E cfg_path = Some cfg /\
    ((exists data,
        e = ToFile (path_join (output_dir a inp) "frequency_calibration.bin")
              F64 data /\
        List.length data = (ntx cfg * nrx cfg)%nat) \/
     (exists data,
        e = ToFile (path_join (output_dir a inp) "phase_amp_calibration.bin")
              F64 data /\
        List.length data = (ntx cfg * nrx cfg * 2)%nat) \/
     e = JsonDump (path_join (output_dir a inp) "waveform_calib_cfg.json")
           (mkContext (num_tx a) (num_rx a)
              (WaveformData "frequency_calibration.bin"
                 "phase_amp_calibration.bin"))).
Proof.
  intros Hc Hin Hw.
  destruct (main_writes fft E a e Hin Hw) as [inp [Ei [[Ec _]|[_ [_ H]]]]];
    [congruence|].
  destruct (waveform_branch_writes fft E a inp _ e H Hw)
    as [_ [_ [cfg_path [cfg [ref [bytes [freq [phase
         [E1 [E2 [_ [_ [Er He]]]]]]]]]]]]].
  exists inp, cfg_path, cfg. repeat split; try assumption.
  destruct (waveform_calibration_inv _ _ _ _ _ Er)
    as [res [bins [frame [_ [_ [Hf Hcal]]]]]].
  destruct (calibrate_profile_shapes _ _ _ _ _ _ _ _ _ _ Hcal
              (range_profile_shape fft _ _ _ _
                 (load_frame_shape _ _ _ _ _ _ Hf))) as [Sf Sp].
  destruct He as [->|[->| ->]].
  - left. eexists. split; [reflexivity|].
    exact (shape2_concat_length _ _ _ Sf).
  - right. left. eexists. split; [reflexivity|].
    exact (ravel_pairs_length _ _ _ Sp).
  - right. right. reflexivity.
Qed.

(** Two antenna pairs in the configuration, twelve by sixteen on the command
    line. *)
Lemma waveform_files_follow_configuration_witness :
  exists inp cfg_path cfg,
    input two_pairs_args = Some inp /\
    calibration_config two_pairs_args = Some cfg_path /\
    config_json (two_pairs_env "y") cfg_path = Some cfg /\
    ((exists data,
        JsonDump "/calibration/waveform_calib_cfg.json"
          (mkContext 12 16
             (WaveformData "frequency_calibration.bin"
                "phase_amp_calibration.bin")) =
        ToFile (path_join (output_dir two_pairs_args inp)
                  "frequency_calibration.bin") F64 data /\
        List.length data = (ntx cfg * nrx cfg)%nat) \/
     (exists data,
        JsonDump "/calibration/waveform_calib_cfg.json"
          (mkContext 12 16
             (WaveformData "frequency_calibration.bin"
                "phase_amp_calibration.bin")) =
        ToFile (path_join (output_dir two_pairs_args inp)
                  "phase_amp_calibration.bin") F64 data /\
        List.length data = (ntx cfg * nrx cfg * 2)%nat) \/
     JsonDump "/calibration/waveform_calib_cfg.json"
       (mkContext 12 16
          (WaveformData "frequency_calibration.bin"
             "phase_amp_calibration.bin")) =
     JsonDump (path_join (output_dir two_pairs_args inp)
                 "waveform_calib_cfg.json")
       (mkContext (num_tx two_pairs_args) (num_rx two_pairs_args)
          (WaveformData "frequency_calibration.bin"
             "phase_amp_calibration.bin"))).
Proof.
  apply (waveform_files_follow_configuration dft (two_pairs_env "y")
           two_pairs_args).
  - reflexivity.
  - vm_compute. do 5 right. left. reflexivity.
  - reflexivity.
Defined.

(** The whole of that run: two values and two pairs for the two antenna
    pairs of the configuration, described as twelve by sixteen. *)
Example waveform_run_of_two_pairs :
  main dft (two_pairs_env "y") two_pairs_args =
  ([MakeDirs "/calibration"; Print waveform_notice; Input prompt;
    ToFile "/calibration/frequency_calibration.bin" F64
      [Fin 0; Fin (176855943800711 # 2814749767106560000000)];
    ToFile "/calibration/phase_amp_calibration.bin" F64
      [Fin 1; Fin 0; Fin 0; Fin (-1 # 5)];
    JsonDump "/calibration/waveform_calib_cfg.json"
      (mkContext 12 16
         (WaveformData "frequency_calibration.bin"
            "phase_amp_calibration.bin"));
    Print "[INFO] Frequency and Phase calibration files generated!"],
   Exit 0).
Proof. vm_compute. reflexivity. Qed.

End CliFacts.
